(** * Lofi-Converter: the audio module [music.py]

    A shallow embedding of [msc_to_mp3_inf] and [slowedreverb] and the
    properties of the effects chain.

    Modelling conventions.
    - Python [int] is [Z]; Python [float] parameters are rationals [Q]
      (every float is a rational; the rounding of float arithmetic is
      idealised away), and [np.log10] is the real logarithm in [R].
    - A call that can raise returns a [result]; code that also touches
      the file system runs in [io], a state-and-exception monad over a
      map from paths to file contents.  Only exceptions below
      [Exception] are modelled, which is what [except Exception] catches.
    - [pydub] is not part of the repository: its [AudioSegment] is the
      interface [AudioLib], and the code is written once for every
      implementation of it.  [RefPCM] is a small 16-bit mono
      implementation used to run the code on concrete clips.
    - [print] calls are left out: they do not influence any result. *)

From Stdlib Require Import ZArith QArith Qround Qreals Reals Lra Lia.
From Stdlib.Strings Require Import Byte Ascii.
From stdpp Require Import base option list strings gmap.

Open Scope Z_scope.

(** ** Python runtime *)

Module Py.

(** The exception classes that occur; all derive from [Exception]. *)
Inductive exn : Type :=
  | FileNotFoundError
  | SameFileError
  | CouldntDecodeError
  | CouldntEncodeError
  | AudioopError
  | TypeError.

Inductive result (A : Type) : Type :=
  | Ok (a : A)
  | Raise (e : exn).
Arguments Ok {A} a.
Arguments Raise {A} e.

#[export] Instance result_ret : MRet result := fun _ a => Ok a.
#[export] Instance result_bind : MBind result := fun _ _ f m =>
  match m with
  | Ok a => f a
  | Raise e => Raise e
  end.

(** The file system: path to contents. *)
Abbreviation files := (gmap string (list byte)).

Definition io (A : Type) : Type := files -> files * result A.

#[export] Instance io_ret : MRet io := fun _ a fs => (fs, Ok a).
#[export] Instance io_bind : MBind io := fun _ _ f m fs =>
  match m fs with
  | (fs', Ok a) => f a fs'
  | (fs', Raise e) => (fs', Raise e)
  end.

(** A pure call that may raise, run inside [io]. *)
Definition lift {A : Type} (r : result A) : io A := fun fs => (fs, r).

(** [try: body  except Exception as e: handler e]. *)
Definition try_except {A : Type} (body : io A) (handler : exn -> io A) : io A :=
  fun fs =>
    match body fs with
    | (fs', Ok a) => (fs', Ok a)
    | (fs', Raise e) => handler e fs'
    end.

(** [for i in xs: st = body i st], stopping at the first exception. *)
Fixpoint for_in {S : Type} (xs : list Z) (body : Z -> S -> result S) (st : S)
  : result S :=
  match xs with
  | [] => Ok st
  | i :: rest => st' ← body i st; for_in rest body st'
  end.

(** [range(n)]. *)
Definition range (n : nat) : list Z := map Z.of_nat (seq 0 n).

(** *** Numbers *)

(** [x > y] and [x < y] on floats. *)
Definition gtb (x y : Q) : bool := negb (Qle_bool x y).
Definition ltb (x y : Q) : bool := gtb y x.

(** [max(a, b)]: the first argument unless the second is larger. *)
Definition max (a b : Q) : Q := if gtb b a then b else a.

(** [int(x)] for a float: truncation toward zero. *)
Definition int (x : Q) : Z := Z.quot (Qnum x) (Z.pos (Qden x)).

(** [np.log10]. *)
Definition log10 (x : R) : R := (ln x / ln 10)%R.

(** [int(x)] for a real number: truncation toward zero. *)
Definition int_R (x : R) : Z :=
  if Rle_dec 0 x then Int_part x else - Int_part (- x).

(** *** Strings *)

Fixpoint is_prefix (p s : string) : bool :=
  match p, s with
  | EmptyString, _ => true
  | String a p', String b s' => if Ascii.eqb a b then is_prefix p' s' else false
  | String _ _, EmptyString => false
  end.

(** [str.replace] for a non-empty [old], scanning from the left:
    [skip] counts the characters of a match still to be dropped. *)
Fixpoint replace_from (skip : nat) (old new s : string) : string :=
  match s with
  | EmptyString => EmptyString
  | String c s' =>
      match skip with
      | S k => replace_from k old new s'
      | O =>
          if is_prefix old s
          then new +:+ replace_from (Nat.pred (String.length old)) old new s'
          else String c (replace_from O old new s')
      end
  end.

(** [str.replace] with an empty [old]: [new] goes before every
    character and at the end. *)
Fixpoint intersperse (new s : string) : string :=
  match s with
  | EmptyString => new
  | String c s' => new +:+ String c (intersperse new s')
  end.

(** [s.replace(old, new)]. *)
Definition replace (s old new : string) : string :=
  match old with
  | EmptyString => intersperse new s
  | String _ _ => replace_from O old new s
  end.

(** [sub in s]. *)
Fixpoint contains (sub s : string) : bool :=
  is_prefix sub s ||
  match s with
  | EmptyString => false
  | String _ s' => contains sub s'
  end.

(** No full stop among the characters. *)
Fixpoint dotfree (q : string) : bool :=
  match q with
  | EmptyString => true
  | String a q' => negb (Ascii.eqb a ".") && dotfree q'
  end.

(** *** Files *)

(** [shutil.copy2(src, dst)] for file paths: the source must exist and
    must not be the destination. *)
Definition copy2 (src dst : string) : io unit := fun fs =>
  match fs !! src with
  | None => (fs, Raise FileNotFoundError)
  | Some data =>
      if String.eqb src dst then (fs, Raise SameFileError)
      else (<[dst := data]> fs, Ok tt)
  end.

End Py.
Export Py.

(** ** The interface of [pydub.AudioSegment] that [music.py] uses *)

Class AudioLib : Type := {
  AudioSegment : Type;
  RawData : Type;
  (** attributes *)
  frame_rate : AudioSegment -> Z;
  raw_data : AudioSegment -> RawData;
  (** [len(seg)]: the duration in milliseconds *)
  seg_len : AudioSegment -> Z;
  (** [seg.max]: the largest sample magnitude *)
  seg_max : AudioSegment -> Z;
  (** [seg.max_possible_amplitude]: the ceiling of the sample format *)
  max_possible_amplitude : AudioSegment -> Z;
  (** [seg._spawn(data, overrides={"frame_rate": r})] *)
  spawn : AudioSegment -> RawData -> Z -> result AudioSegment;
  set_frame_rate : AudioSegment -> Z -> result AudioSegment;
  (** [AudioSegment.silent(duration=d)] *)
  silent : Z -> result AudioSegment;
  (** [seg.append(other, crossfade=0)] *)
  append : AudioSegment -> AudioSegment -> result AudioSegment;
  (** [seg.apply_gain(db)] *)
  apply_gain : AudioSegment -> Z -> result AudioSegment;
  (** [seg[:ms]] *)
  slice_to : AudioSegment -> Z -> result AudioSegment;
  (** [seg.overlay(other, position=pos)] *)
  overlay : AudioSegment -> AudioSegment -> Z -> result AudioSegment;
  low_pass_filter : AudioSegment -> Z -> result AudioSegment;
  normalize : AudioSegment -> result AudioSegment;
  (** the codecs behind [from_wav] and [export] *)
  decode : string -> list byte -> result AudioSegment;
  encode : AudioSegment -> string -> option string -> result (list byte)
}.

Section Music.
Context {L : AudioLib}.

(** [seg + other] on two segments is [append] without crossfade. *)
Definition seg_add (a b : AudioSegment) : result AudioSegment := append a b.

(** [seg - db] on a segment and a number is [apply_gain(-db)]. *)
Definition seg_sub (a : AudioSegment) (db : Z) : result AudioSegment :=
  apply_gain a (- db).

(** [AudioSegment.from_wav(path)]: read the file, then decode it. *)
Definition from_wav (path : string) : io AudioSegment := fun fs =>
  match fs !! path with
  | None => (fs, Raise FileNotFoundError)
  | Some data => (fs, decode "wav" data)
  end.

(** [seg.export(path, format=fmt, bitrate=br)]: the target is opened for
    writing (and so emptied) before the clip is encoded into it. *)
Definition export (a : AudioSegment) (path fmt : string) (br : option string)
  : io unit := fun fs =>
  match encode a fmt br with
  | Ok data => (<[path := data]> fs, Ok tt)
  | Raise e => (<[path := []]> fs, Raise e)
  end.

(** *** [msc_to_mp3_inf] *)

(** Line 25. *)
Definition mp3_name (wav_file : string) : string :=
  replace wav_file ".wav" ".mp3".

(** The [try] block, lines 21-30. *)
Definition msc_to_mp3_inf_try (wav_file : string) : io string :=
  audio ← from_wav wav_file;
  let mp3_file := mp3_name wav_file in
  _ ← export audio mp3_file "mp3" (Some "192k");
  mret mp3_file.

Definition msc_to_mp3_inf (wav_file : string) : io string :=
  try_except (msc_to_mp3_inf_try wav_file) (fun _ => mret wav_file).

(** *** [slowedreverb] *)

Record params : Type := Params {
  room_size : Q;
  damping : Q;
  wet_level : Q;
  dry_level : Q;
  delay : Z;
  slow_factor : Q
}.

(** Lines 56-65: the slow effect. *)
Definition time_stretch (slow_factor : Q) (audio : AudioSegment)
  : result AudioSegment :=
  if gtb slow_factor 0 then
    let new_frame_rate := int (inject_Z (frame_rate audio) * (1 - slow_factor)) in
    audio_slow ← spawn audio (raw_data audio) new_frame_rate;
    set_frame_rate audio_slow (frame_rate audio)
  else mret audio.

(** The two clip variables that are live in the reverb loop. *)
Record locals : Type := Locals {
  audio : AudioSegment;
  reverb : AudioSegment
}.

(** Line 75. *)
Definition decay (room_size damping : Q) (i : Z) : Q :=
  room_size * (1 - damping) ^ (i + 1).

(** Line 79: [AudioSegment.silent(duration=delay_ms) + reverb - (20 * (i + 1))]. *)
Definition delayed_tap (delay_ms : Z) (reverb : AudioSegment) (i : Z)
  : result AudioSegment :=
  s ← silent delay_ms;
  joined ← seg_add s reverb;
  seg_sub joined (20 * (i + 1)).

(** Lines 82-85: mix the tap into [audio]. *)
Definition mix_tap (audio delayed : AudioSegment) : result AudioSegment :=
  if seg_len delayed >? seg_len audio then
    cut ← slice_to delayed (seg_len audio);
    overlay audio cut 0
  else overlay audio delayed 0.

(** Line 77: [decay > 0.01]. *)
Definition tap_included (room_size damping : Q) (i : Z) : bool :=
  gtb (decay room_size damping i) 0.01.

(** Lines 78-85: build the tap from [reverb] and mix it into [audio]. *)
Definition add_tap (delay_ms i : Z) (st : locals) : result locals :=
  delayed ← delayed_tap delay_ms (reverb st) i;
  audio' ← mix_tap (audio st) delayed;
  mret (Locals audio' (reverb st)).

(** Lines 74-85: one pass of the loop body. *)
Definition reverb_body (p : params) (i : Z) (st : locals) : result locals :=
  let delay_ms := delay p * (i + 1) in
  if tap_included (room_size p) (damping p) i
  then add_tap delay_ms i st
  else mret st.

(** Lines 68-85: the reverb effect. *)
Definition reverb_stage (p : params) (audio0 : AudioSegment)
  : result AudioSegment :=
  if gtb (wet_level p) 0 && (delay p >? 0) then
    st ← for_in (range 3) (reverb_body p) (Locals audio0 audio0);
    mret (audio st)
  else mret audio0.

(** Line 89: the number subtracted from the clip. *)
Definition level_db (dry_level : Q) : Z :=
  int_R (20 * log10 (Q2R (Py.max dry_level 0.01))).

(** Lines 88-89: the overall level. *)
Definition gain_stage (dry_level : Q) (audio : AudioSegment)
  : result AudioSegment :=
  if ltb dry_level 1 then seg_sub audio (level_db dry_level) else mret audio.

(** Lines 93-96: low-pass filter, then normalise. *)
Definition tone_stage (audio : AudioSegment) : result AudioSegment :=
  audio ← low_pass_filter audio 8000;
  normalize audio.

(** Lines 56-96: all effects, on the decoded clip. *)
Definition effects (p : params) (audio : AudioSegment) : result AudioSegment :=
  audio ← time_stretch (slow_factor p) audio;
  audio ← reverb_stage p audio;
  audio ← gain_stage (dry_level p) audio;
  tone_stage audio.

(** The [try] block, lines 52-101. *)
Definition slowedreverb_try (input_file output_file : string) (p : params)
  : io string :=
  audio ← from_wav input_file;
  audio ← lift (effects p audio);
  _ ← export audio output_file "wav" None;
  mret output_file.

(** The [except] block, lines 103-108. *)
Definition slowedreverb_except (input_file output_file : string) (e : exn)
  : io string :=
  _ ← copy2 input_file output_file;
  mret output_file.

Definition slowedreverb (input_file output_file : string) (p : params)
  : io string :=
  try_except (slowedreverb_try input_file output_file p)
             (slowedreverb_except input_file output_file).

(** One pass of the loop, written on the accumulated clip alone, with
    the clip [src] that the taps are built from as a parameter. *)
Definition tap_pass (p : params) (src : AudioSegment) (i : Z)
  (acc : AudioSegment) : result AudioSegment :=
  if tap_included (room_size p) (damping p) i then
    delayed ← delayed_tap (delay p * (i + 1)) src i;
    mix_tap acc delayed
  else Ok acc.

(** *** The reverb loop as the specification words it

    Every tap is built from the accumulated signal, so that a tap
    contains the taps mixed in before it. *)
Definition reverb_body_compounding (p : params) (i : Z) (acc : AudioSegment)
  : result AudioSegment :=
  let delay_ms := delay p * (i + 1) in
  if tap_included (room_size p) (damping p) i then
    delayed ← delayed_tap delay_ms acc i;
    mix_tap acc delayed
  else mret acc.

Definition reverb_stage_compounding (p : params) (audio0 : AudioSegment)
  : result AudioSegment :=
  if gtb (wet_level p) 0 && (delay p >? 0) then
    for_in (range 3) (reverb_body_compounding p) audio0
  else mret audio0.

End Music.

(** The clip that lines 82-85 hand to [overlay]: the tap, cut to the
    length of [audio] when it is longer. *)
Definition fit_tap {L : AudioLib} (audio delayed : AudioSegment)
  : result AudioSegment :=
  if seg_len delayed >? seg_len audio
  then slice_to delayed (seg_len audio)
  else mret delayed.

(** What the documentation of [pydub] promises about lengths, as far as
    the properties below rely on it. *)
Class LengthLaws (L : AudioLib) : Prop := {
  (** "The result is always the same length as this AudioSegment." *)
  overlay_len : forall a b pos c,
    overlay a b pos = Ok c -> seg_len c = seg_len a;
  (** A slice [seg[:ms]] lasts at most [ms] milliseconds. *)
  slice_to_len : forall a ms c,
    0 <= ms -> slice_to a ms = Ok c -> seg_len c <= ms;
  (** Durations are not negative. *)
  seg_len_nonneg : forall a, 0 <= seg_len a
}.

(** Samples are stored in the sample format, and so within its range;
    this is all that is needed of [normalize]. *)
Class RangeLaws (L : AudioLib) : Prop := {
  normalize_max : forall a c,
    normalize a = Ok c -> seg_max c <= max_possible_amplitude c
}.

(** ** A reference implementation: 16-bit mono PCM *)

Module RefPCM.

Record pcm : Type := Pcm {
  rate : Z;
  samples : list Z
}.

Definition clamp16 (x : Z) : Z := Z.max (-32768) (Z.min 32767 x).

Definition frame_count (a : pcm) : Z := Z.of_nat (length (samples a)).

(** Milliseconds, rounded to the nearest. *)
Definition len_ms (a : pcm) : Z :=
  if rate a <=? 0 then 0
  else (2000 * frame_count a + rate a) / (2 * rate a).

Definition peak (a : pcm) : Z :=
  foldr (fun s m => Z.max (Z.abs s) m) 0 (samples a).

(** Rate conversion by sample-and-hold. *)
Definition resample (r r' : Z) (xs : list Z) : list Z :=
  map (fun j => nth (Z.to_nat (j * r / r')) xs 0)
      (range (Z.to_nat (Z.of_nat (length xs) * r' / r))).

Definition convert (a : pcm) (r : Z) : result pcm :=
  if r =? rate a then Ok a
  else if (r <=? 0) || (rate a <=? 0) then Raise AudioopError
  else Ok (Pcm r (resample (rate a) r (samples a))).

(** [silent] works at 11025 Hz, as in [pydub]. *)
Definition silence (ms : Z) : result pcm :=
  Ok (Pcm 11025 (repeat 0 (Z.to_nat (11025 * ms / 1000)))).

(** Both clips are brought to the higher of the two rates. *)
Definition concat (a b : pcm) : result pcm :=
  let r := Z.max (rate a) (rate b) in
  a' ← convert a r;
  b' ← convert b r;
  mret (Pcm r (samples a' ++ samples b')).

(** The linear factor of a gain in decibels, [10 ** (db / 20)]: exact
    for multiples of 20 dB, with [10 ** (1/20)] to nine places. *)
Definition db_to_ratio (db : Z) : Q :=
  Qred (10 ^ (db / 20) * (1122018454 # 1000000000) ^ (db mod 20))%Q.

Definition scale (f : Q) (s : Z) : Z := clamp16 (Qfloor (inject_Z s * f)).

Definition gain (a : pcm) (db : Z) : result pcm :=
  Ok (Pcm (rate a) (map (scale (db_to_ratio db)) (samples a))).

Definition slice (a : pcm) (ms : Z) : result pcm :=
  Ok (Pcm (rate a) (take (Z.to_nat (ms * rate a / 1000)) (samples a))).

(** Sample-wise sum, saturating, over the length of the first list. *)
Fixpoint mix (xs ys : list Z) : list Z :=
  match xs, ys with
  | x :: xs', y :: ys' => clamp16 (x + y) :: mix xs' ys'
  | _, [] => xs
  | [], _ => []
  end.

(** The overlaid clip is brought to the rate of the base clip. *)
Definition mix_at (a b : pcm) (pos : Z) : result pcm :=
  b' ← convert b (rate a);
  let off := Z.to_nat (pos * rate a / 1000) in
  mret (Pcm (rate a)
            (take off (samples a) ++ mix (drop off (samples a)) (samples b'))).

(** One-pole low-pass filter; the state is kept exact. *)
Fixpoint smooth (alpha last : Q) (xs : list Z) : list Z :=
  match xs with
  | [] => []
  | x :: xs' =>
      let y := Qred (last + alpha * (inject_Z x - last))%Q in
      Py.int y :: smooth alpha y xs'
  end.

Definition low_pass (a : pcm) (cutoff : Z) : result pcm :=
  if rate a <=? 0 then Raise AudioopError
  else
    let w := (inject_Z (2 * cutoff) * (355 # 113))%Q in
    let alpha := Qred (w / (inject_Z (rate a) + w))%Q in
    match samples a with
    | [] => Ok a
    | x :: xs => Ok (Pcm (rate a) (x :: smooth alpha (inject_Z x) xs))
    end.

(** Peak normalisation with 0.1 dB of headroom. *)
Definition normalise (a : pcm) : result pcm :=
  if peak a =? 0 then Ok a
  else Ok (Pcm (rate a) (map (scale (32393 # Z.to_pos (peak a))) (samples a))).

(** A toy container: a magic word, the rate, then little-endian samples. *)
Definition byte_of_Z (z : Z) : byte :=
  default x00 (Byte.of_N (Z.to_N (z mod 256))).
Definition Z_of_byte (b : byte) : Z := Z.of_N (Byte.to_N b).

Definition word_bytes (z : Z) : list byte :=
  [byte_of_Z z; byte_of_Z (z / 256)].

Fixpoint words (bs : list byte) : option (list Z) :=
  match bs with
  | [] => Some []
  | lo :: hi :: rest =>
      let v := Z_of_byte lo + 256 * Z_of_byte hi in
      ws ← words rest;
      Some ((if v <? 32768 then v else v - 65536) :: ws)
  | _ => None
  end.

Definition riff : list byte := [x52; x49; x46; x46].
Definition id3 : list byte := [x49; x44; x33].

Definition decode_file (fmt : string) (bs : list byte) : result pcm :=
  match bs with
  | m1 :: m2 :: m3 :: m4 :: r1 :: r2 :: body =>
      if forallb (fun '(x, y) => Byte.eqb x y) (zip [m1; m2; m3; m4] riff)
         && String.eqb fmt "wav" then
        match words body with
        | Some ws => Ok (Pcm (Z_of_byte r1 + 256 * Z_of_byte r2) ws)
        | None => Raise CouldntDecodeError
        end
      else Raise CouldntDecodeError
  | _ => Raise CouldntDecodeError
  end.

Definition encode_file (a : pcm) (fmt : string) (br : option string)
  : result (list byte) :=
  if String.eqb fmt "wav" then
    Ok (riff ++ word_bytes (rate a) ++ flat_map word_bytes (samples a))
  else if String.eqb fmt "mp3" then
    Ok (id3 ++ String.list_byte_of_string (default "128k" br)
            ++ map (fun s => byte_of_Z (s / 256)) (samples a))
  else Raise CouldntEncodeError.

#[export] Instance lib : AudioLib := {|
  AudioSegment := pcm;
  RawData := list Z;
  frame_rate := rate;
  raw_data := samples;
  seg_len := len_ms;
  seg_max := peak;
  max_possible_amplitude := fun _ => 32768;
  spawn := fun _ data r => Ok (Pcm r data);
  set_frame_rate := convert;
  silent := silence;
  append := concat;
  apply_gain := gain;
  slice_to := slice;
  overlay := mix_at;
  low_pass_filter := low_pass;
  normalize := normalise;
  decode := decode_file;
  encode := encode_file
|}.

(** A click followed by silence, at 11025 Hz. *)
Definition click : pcm := Pcm 11025 (1000 :: repeat 0 43).

(** An echo that lets all three taps through, one millisecond apart. *)
Definition echo_params : params := Params 1 0 0.08 1 1 0.

(** The default settings of the application. *)
Definition default_params : params := Params 0.75 0.5 0.08 0.2 2 0.08.

(** The click as a WAV file, and a disk that holds it. *)
Definition click_wav : list byte :=
  riff ++ word_bytes (rate click) ++ flat_map word_bytes (samples click).
Definition disk : files := {[ "in.wav" := click_wav ]}.

(** A disk whose only file is not a WAV file. *)
Definition junk : list byte := [x00; x01].
Definition junk_disk : files := {[ "in.wav" := junk ]}.

End RefPCM.

(** ** The Python runtime that [main.py] adds *)

From stdpp Require pretty.

Module Os.

(** [s[:n]] and [s[n:]] for [n >= 0]. *)
Fixpoint str_take (n : nat) (s : string) : string :=
  match n, s with
  | S n', String c s' => String c (str_take n' s')
  | _, _ => EmptyString
  end.

Fixpoint str_drop (n : nat) (s : string) : string :=
  match n, s with
  | S n', String _ s' => str_drop n' s'
  | _, _ => s
  end.

(** [s.rfind(c)] for one character [c]: the last index of [c] in [s],
    counted from [i] for the first character, or -1. *)
Fixpoint rfind_from (c : ascii) (s : string) (i : Z) : Z :=
  match s with
  | EmptyString => -1
  | String a s' =>
      let r := rfind_from c s' (i + 1) in
      if r >=? 0 then r else if Ascii.eqb a c then i else -1
  end.

Definition rfind (c : ascii) (s : string) : Z := rfind_from c s 0.

(** [s[i:i+1] != c]: past the end the slice is empty, and differs. *)
Definition char_differs (s : string) (i : nat) (c : ascii) : bool :=
  match String.get i s with
  | Some a => negb (Ascii.eqb a c)
  | None => true
  end.

(** The [while] loop of [genericpath._splitext], with [n] passes left:
    the extension is split off at the first character of the file name
    that is not a full stop. *)
Fixpoint splitext_scan (p : string) (dotIndex filenameIndex n : nat)
  : string * string :=
  match n with
  | O => (p, EmptyString)
  | S n' =>
      if char_differs p filenameIndex "."
      then (str_take dotIndex p, str_drop dotIndex p)
      else splitext_scan p dotIndex (S filenameIndex) n'
  end.

(** [os.path.splitext(p)] of [posixpath]. *)
Definition splitext (p : string) : string * string :=
  let sepIndex := rfind "/" p in
  let dotIndex := rfind "." p in
  if dotIndex >? sepIndex then
    let filenameIndex := sepIndex + 1 in
    splitext_scan p (Z.to_nat dotIndex) (Z.to_nat filenameIndex)
                  (Z.to_nat (dotIndex - filenameIndex))
  else (p, EmptyString).

(** [os.path.exists(path)]. *)
Definition path_exists (path : string) : io bool := fun fs =>
  (fs, Ok (bool_decide (is_Some (fs !! path)))).

(** [os.remove(path)]. *)
Definition remove (path : string) : io unit := fun fs =>
  match fs !! path with
  | Some _ => (delete path fs, Ok tt)
  | None => (fs, Raise FileNotFoundError)
  end.

(** [c.lower()] for one ASCII character. *)
Definition lower_char (c : ascii) : ascii :=
  let n := nat_of_ascii c in
  if (65 <=? n)%nat && (n <=? 90)%nat then ascii_of_nat (n + 32) else c.

(** [s.lower()], on ASCII letters. *)
Fixpoint lower (s : string) : string :=
  match s with
  | EmptyString => EmptyString
  | String c s' => String (lower_char c) (lower s')
  end.

(** [try: block  finally: final]. *)
Definition try_finally {A : Type} (block : io A) (final : io unit) : io A :=
  fun fs =>
    match block fs with
    | (fs1, r) =>
        match final fs1 with
        | (fs2, Ok _) => (fs2, r)
        | (fs2, Raise e) => (fs2, Raise e)
        end
    end.

(** The values found in the dictionaries of [yt_dlp]. *)
Inductive pyval : Type :=
  | VNone
  | VBool (b : bool)
  | VInt (z : Z)
  | VFloat (q : Q)
  | VStr (s : string).

(** [bool(v)]. *)
Definition truthy (v : pyval) : bool :=
  match v with
  | VNone => false
  | VBool b => b
  | VInt z => negb (z =? 0)
  | VFloat q => negb (Qeq_bool q 0)
  | VStr s => negb (String.eqb s EmptyString)
  end.

(** [d.get(key, default)]. *)
Definition dict_get (d : gmap string pyval) (key : string) (default : pyval)
  : pyval :=
  match d !! key with
  | Some v => v
  | None => default
  end.

(** [v > n] for an integer [n]: numbers compare, the rest raises. *)
Definition gt_int (v : pyval) (n : Z) : result bool :=
  match v with
  | VInt z => Ok (z >? n)
  | VFloat q => Ok (gtb q (inject_Z n))
  | VBool b => Ok (Z.b2z b >? n)
  | VNone | VStr _ => Raise TypeError
  end.

(** [v // n] for a positive integer [n]. *)
Definition floordiv_int (v : pyval) (n : Z) : result pyval :=
  match v with
  | VInt z => Ok (VInt (z / n))
  | VFloat q => Ok (VFloat (inject_Z (Qfloor (q / inject_Z n))))
  | VBool b => Ok (VInt (Z.b2z b / n))
  | VNone | VStr _ => Raise TypeError
  end.

End Os.

(** ** [main.py] *)

(** Line 16. *)
Definition MAX_DURATION_SECONDS : Z := 600.

(** What [YoutubeDL.extract_info] does for a link: it returns the
    dictionary of the video, raises [ExtractorError] with a message, or
    raises another exception. *)
Inductive extraction : Type :=
  | Extracted (info_dict : gmap string Os.pyval)
  | ExtractorError (error_msg : string)
  | OtherError (e : exn).

(** What [validate_youtube_url] returns: [(is_valid, error_message,
    duration)], with [None] as [VNone]. *)
Record verdict : Type := Verdict {
  is_valid : bool;
  error_message : option string;
  duration : Os.pyval
}.

Section Validate.
(** [ydl.extract_info(youtube_link, download=False)] *)
Variable extract_info : string -> extraction.
(** [f"{minutes:.1f}"] *)
Variable format_1f : Os.pyval -> result string.

(** Lines 70-87: the checks on the dictionary. *)
Definition validate_info (info_dict : gmap string Os.pyval) : result verdict :=
  let duration := Os.dict_get info_dict "duration" (Os.VInt 0) in
  if Os.truthy (Os.dict_get info_dict "is_live" Os.VNone) then
    mret (Verdict false (Some "Live streams are not supported") Os.VNone)
  else if Os.truthy (Os.dict_get info_dict "private" Os.VNone) then
    mret (Verdict false (Some "Private videos are not accessible") Os.VNone)
  else
    over ← Os.gt_int duration MAX_DURATION_SECONDS;
    if over : bool then
      minutes ← Os.floordiv_int duration 60;
      text ← format_1f minutes;
      mret (Verdict false
              (Some ("Video duration (" +:+ text +:+
                     " minutes) exceeds 10-minute limit"))
              duration)
    else mret (Verdict true None duration).

(** Lines 89-96: the message for an [ExtractorError]. *)
Definition extractor_verdict (error_msg : string) : verdict :=
  if contains "Video unavailable" error_msg then
    Verdict false
      (Some "Video is not available (may be private or region-locked)")
      Os.VNone
  else if contains "age" (Os.lower error_msg) then
    Verdict false (Some "Age-restricted content cannot be downloaded") Os.VNone
  else
    Verdict false (Some ("YouTube error: " +:+ Os.str_take 100 error_msg))
            Os.VNone.

(** Lines 97-99. *)
Definition failed_verdict : verdict :=
  Verdict false (Some "Failed to validate YouTube URL. Please check the link.")
          Os.VNone.

(** The body of [validate_youtube_url]; the cache around it is left out. *)
Definition validate_youtube_url (youtube_link : string) : verdict :=
  match extract_info youtube_link with
  | Extracted info_dict =>
      match validate_info info_dict with
      | Ok v => v
      | Raise _ => failed_verdict
      end
  | ExtractorError error_msg => extractor_verdict error_msg
  | OtherError _ => failed_verdict
  end.

End Validate.

Section Converter.
Context {L : AudioLib}.

(** Lines 168-187: [process_audio]; [settings] is the dictionary with
    the six keys that [render_settings_panel] returns. *)
Definition process_audio (audio_file : string) (settings : params)
  : io (option string) :=
  try_except
    (let output_file := (fst (Os.splitext audio_file) +:+ "_lofi.wav")%string in
     _ ← slowedreverb audio_file output_file settings;
     mret (Some output_file))
    (fun _ => mret None).

End Converter.

(** Lines 46-51: one pass of the loop in [temp_files_manager]; [None]
    and the empty string are skipped by [if file]. *)
Definition remove_temp (file : option string) : io unit :=
  match file with
  | Some f =>
      if negb (String.eqb f EmptyString) then
        found ← Os.path_exists f;
        if found : bool
        then try_except (Os.remove f) (fun _ => mret tt)
        else mret tt
      else mret tt
  | None => mret tt
  end.

(** Lines 45-51: [for file in files]. *)
Fixpoint remove_temps (files : list (option string)) : io unit :=
  match files with
  | [] => mret tt
  | file :: rest => _ ← remove_temp file; remove_temps rest
  end.

(** [with temp_files_manager(file, ...): block]. *)
Definition temp_files_manager {A : Type} (files : list (option string))
  (block : io A) : io A :=
  Os.try_finally block (remove_temps files).

(** ** [download_youtube_audio] and the flow of [main] *)

Module Os2.

(** [s.endswith(c)] and [s.startswith(c)] for one character. *)
Fixpoint endswith (s : string) (c : ascii) : bool :=
  match s with
  | EmptyString => false
  | String a EmptyString => Ascii.eqb a c
  | String _ s' => endswith s' c
  end.

Definition startswith (s : string) (c : ascii) : bool :=
  match s with
  | String a _ => Ascii.eqb a c
  | EmptyString => false
  end.

(** [os.path.join(a, b)] of [posixpath]. *)
Definition join (a b : string) : string :=
  if startswith b "/" then b
  else if String.eqb a EmptyString || endswith a "/" then (a +:+ b)%string
  else (a +:+ "/" +:+ b)%string.

(** [open(path, 'rb').read()]. *)
Definition read_file (path : string) : io (list byte) := fun fs =>
  match fs !! path with
  | Some data => (fs, Ok data)
  | None => (fs, Raise FileNotFoundError)
  end.

End Os2.

(** Line 17. *)
Definition TEMP_DIR : string := "uploaded_files".

(** Lines 138-144: the metadata of a download. *)
Definition metadata_of (info_dict : gmap string Os.pyval) (duration : Os.pyval)
  : gmap string Os.pyval :=
  <[ "title" := Os.dict_get info_dict "title" (Os.VStr "Unknown") ]>
  (<[ "artist" := Os.dict_get info_dict "artist"
                    (Os.dict_get info_dict "uploader" (Os.VStr "Unknown")) ]>
  (<[ "duration" := duration ]>
  (<[ "thumbnail" := Os.dict_get info_dict "thumbnail" Os.VNone ]>
  (<[ "view_count" := Os.dict_get info_dict "view_count" (Os.VInt 0) ]> ∅)))).

(** Line 135: the name of the audio file. *)
Definition wav_name (prepared : string) : string :=
  replace (replace prepared ".webm" ".wav") ".m4a" ".wav".

(** [(audio_file, mp3_file, song_name, metadata)]. *)
Record download : Type := Download {
  audio_file : string;
  mp3_file : string;
  song_name : Os.pyval;
  metadata : gmap string Os.pyval
}.

Section Flow.
Context {L : AudioLib}.
(** [ydl.extract_info(youtube_link, download=False)] *)
Variable extract_info : string -> extraction.
(** [f"{minutes:.1f}"] *)
Variable format_1f : Os.pyval -> result string.
(** [str(uuid.uuid4())] *)
Variable unique_id : string.
(** [ydl.extract_info(youtube_link, download=True)] with the output
    template: it writes the files of the download. *)
Variable ydl_download : string -> string -> io (gmap string Os.pyval).
(** [ydl.prepare_filename(info_dict)] with the output template. *)
Variable prepare_filename : gmap string Os.pyval -> string -> result string.

(** Lines 115-150: the identifier, the template and the [try] block of
    [download_youtube_audio]. *)
Definition download_try (youtube_link : string) (duration : Os.pyval)
  : io (option download) :=
  let output_template := Os2.join TEMP_DIR (unique_id +:+ ".%(ext)s") in
  info_dict ← ydl_download youtube_link output_template;
  prepared ← lift (prepare_filename info_dict output_template);
  let audio_file := wav_name prepared in
  let metadata := metadata_of info_dict duration in
  mp3_file ← msc_to_mp3_inf audio_file;
  mret (Some (Download audio_file mp3_file
                (Os.dict_get metadata "title" Os.VNone) metadata)).

(** Lines 102-155: [download_youtube_audio]; the cache around it and
    the messages on the page are left out. *)
Definition download_youtube_audio (youtube_link : string)
  : io (option download) :=
  let v := validate_youtube_url extract_info format_1f youtube_link in
  if negb (is_valid v) then mret None
  else try_except (download_try youtube_link (duration v))
                  (fun _ => mret None).

(** Lines 387-394 of [main]: the metrics; the division needs a number
    for the duration, and the thousands format a number for the views
    unless they are empty.  The class of the exception is immaterial. *)
Definition is_number (v : Os.pyval) : bool :=
  match v with
  | Os.VInt _ | Os.VFloat _ | Os.VBool _ => true
  | Os.VNone | Os.VStr _ => false
  end.

Definition show_metrics (metadata : gmap string Os.pyval) : result unit :=
  if is_number (Os.dict_get metadata "duration" (Os.VInt 0)) then
    let views := Os.dict_get metadata "view_count" (Os.VInt 0) in
    if Os.truthy views && negb (is_number views) then Raise TypeError
    else Ok tt
  else Raise TypeError.

(** Lines 374-439 of [main]: download, show, process, offer the MP3 and
    clean up.  Of what is drawn on the page only the steps that can
    raise are kept: the metrics, and the two audio players, which read
    their file.  The result is the name of the song and the bytes behind
    the download button. *)
Definition main_flow (youtube_link : string) (settings : params)
  : io (option (Os.pyval * list byte)) :=
  try_except
    (download_result ← download_youtube_audio youtube_link;
     match download_result with
     | Some d =>
         _ ← lift (show_metrics (metadata d));
         _ ← Os2.read_file (mp3_file d);
         output ← process_audio (audio_file d) settings;
         match output with
         | Some output_file =>
             if negb (String.eqb output_file EmptyString) then
               lofi_mp3 ← msc_to_mp3_inf output_file;
               _ ← Os2.read_file lofi_mp3;
               data ← Os2.read_file lofi_mp3;
               _ ← temp_files_manager
                     [Some (audio_file d); Some output_file;
                      Some (mp3_file d); Some lofi_mp3]
                     (mret tt);
               mret (Some (song_name d, data))
             else mret None
         | None => mret None
         end
     | None => mret None
     end)
    (fun _ => mret None).

End Flow.

(** Lines 443-447 of [main]: the lines of the history, the ten most
    recent conversions with the newest first. *)
Definition recent_lines (processed_files : list string) : list string :=
  imap (fun i file =>
          (pretty.pretty (S i) +:+ ". " +:+ Os.str_take 40 file +:+ "...")%string)
       (reverse (drop (length processed_files - 10) processed_files)).

(** ** [render_settings_panel] *)

(** Lines 19-26: [DEFAULT_SETTINGS], and the presets of lines 262-270. *)
Definition DEFAULT_SETTINGS : params := Params 0.75 0.5 0.08 0.2 2 0.08.
Definition dreamy_preset : params := Params 0.9 0.3 0.12 0.15 5 0.12.
Definition chill_preset : params := Params 0.6 0.6 0.06 0.25 2 0.06.
Definition ambient_preset : params := Params 1.0 0.2 0.15 0.1 8 0.15.

(** Lines 252-343: the four buttons are read in turn, and the sliders
    are only read when no preset was chosen.  The arguments are what
    the buttons and the sliders return. *)
Definition render_settings_panel
  (dreamy chill ambient default_button : bool) (sliders : params) : params :=
  let preset_selected := None in
  let preset_selected :=
    if dreamy then Some dreamy_preset else preset_selected in
  let preset_selected :=
    if chill then Some chill_preset else preset_selected in
  let preset_selected :=
    if ambient then Some ambient_preset else preset_selected in
  let preset_selected :=
    if default_button then Some DEFAULT_SETTINGS else preset_selected in
  match preset_selected with
  | Some preset => preset
  | None => sliders
  end.

(** The minimum and maximum of the six sliders, lines 284-334. *)
Definition in_slider_range (p : params) : Prop :=
  (0.1 <= room_size p <= 1.0)%Q /\
  (0.1 <= damping p <= 1.0)%Q /\
  (0.0 <= wet_level p <= 0.5)%Q /\
  (0.0 <= dry_level p <= 1.0)%Q /\
  0 <= delay p <= 50 /\
  (0.0 <= slow_factor p <= 0.3)%Q.

(** Sample extractions and files for the examples. *)
Module Samples.

Definition video (seconds : Z) : gmap string Os.pyval :=
  {[ "title" := Os.VStr "song"; "duration" := Os.VInt seconds ]}.

Definition extract (youtube_link : string) : extraction :=
  if String.eqb youtube_link "short" then Extracted (video 600)
  else if String.eqb youtube_link "long" then Extracted (video 601)
  else if String.eqb youtube_link "live" then
    Extracted (<["is_live" := Os.VBool true]> (video 7200))
  else if String.eqb youtube_link "unknown" then
    Extracted (<["duration" := Os.VNone]> (video 0))
  else if String.eqb youtube_link "bare" then
    Extracted {[ "title" := Os.VStr "song" ]}
  else if String.eqb youtube_link "gone" then
    ExtractorError "Unable to download webpage"
  else OtherError TypeError.

(** A stand-in for the formatting of the minutes. *)
Definition format (v : Os.pyval) : result string :=
  match v with
  | Os.VInt 10 => Ok "10.0"
  | _ => Ok "?"
  end.

Definition temp_disk : files :=
  {[ "uploaded_files/a.wav" := RefPCM.click_wav;
     "uploaded_files/a.mp3" := RefPCM.id3;
     "keep.txt" := [] ]}.

(** Files to clean up: one of them twice, one that does not exist. *)
Definition temps : list (option string) :=
  [Some "uploaded_files/a.wav"; None; Some EmptyString;
   Some "uploaded_files/a.wav"; Some "uploaded_files/b.wav"].

(** The default settings with more room and less damping. *)
Definition roomy_params : params := Params 0.9 0.3 0.5 0.2 2 0.08.

(** A download that leaves the click as a WAV file and reports the name
    of the stream it fetched. *)
Definition fetch (youtube_link output_template : string)
  : io (gmap string Os.pyval) := fun fs =>
  (<["uploaded_files/id.wav" := RefPCM.click_wav]> fs,
   Ok (<["uploader" := Os.VStr "channel"]> (video 600))).

Definition prepared (info_dict : gmap string Os.pyval)
  (output_template : string) : result string :=
  Ok "uploaded_files/id.webm".

End Samples.

(** ** Comparisons and the monads *)

Lemma gtb_true_iff (x y : Q) : gtb x y = true <-> (y < x)%Q.
Proof.
  unfold gtb. rewrite negb_true_iff, <- not_true_iff_false, Qle_bool_iff.
  split; [apply Qnot_le_lt | apply Qlt_not_le].
Qed.

Lemma gtb_false_iff (x y : Q) : gtb x y = false <-> (x <= y)%Q.
Proof.
  unfold gtb. rewrite negb_false_iff. apply Qle_bool_iff.
Qed.

Lemma ltb_true_iff (x y : Q) : ltb x y = true <-> (x < y)%Q.
Proof. apply gtb_true_iff. Qed.

Lemma ltb_false_iff (x y : Q) : ltb x y = false <-> (y <= x)%Q.
Proof. apply gtb_false_iff. Qed.

Lemma result_bind_Ok {A B : Type} (m : result A) (f : A -> result B) (b : B) :
  m ≫= f = Ok b <-> exists a, m = Ok a /\ f a = Ok b.
Proof.
  destruct m as [a|e]; simpl; split.
  - intros H. exists a. auto.
  - intros (a' & [= <-] & H). exact H.
  - discriminate.
  - intros (a' & [=] & _).
Qed.

Section Stages.
Context {L : AudioLib}.

(** ** Time-stretch *)

(** C6. With [slow_factor = 0] the slow effect hands the clip back
    unchanged: no library call is made. *)
Theorem time_stretch_identity (audio : AudioSegment) (slow_factor : Q) :
  (slow_factor == 0)%Q -> time_stretch slow_factor audio = Ok audio.
Proof.
  intros H. unfold time_stretch.
  replace (gtb slow_factor 0) with false; [reflexivity|].
  symmetry. apply gtb_false_iff. rewrite H. apply Qle_refl.
Qed.

(** ** Reverb *)

Lemma reverb_guard_false (p : params) :
  (wet_level p <= 0)%Q \/ delay p <= 0 <->
  gtb (wet_level p) 0 && (delay p >? 0) = false.
Proof.
  rewrite andb_false_iff, gtb_false_iff, Z.gtb_ltb, Z.ltb_ge. reflexivity.
Qed.

(** C7. With [wet_level <= 0] or [delay <= 0] the reverb effect hands
    the clip back unchanged: no tap is built and nothing is overlaid. *)
Theorem reverb_stage_noop (p : params) (audio : AudioSegment) :
  (wet_level p <= 0)%Q \/ delay p <= 0 -> reverb_stage p audio = Ok audio.
Proof.
  intros H. apply reverb_guard_false in H.
  unfold reverb_stage. rewrite H. reflexivity.
Qed.

Lemma tap_included_true_iff (room_size damping : Q) (i : Z) :
  tap_included room_size damping i = true <->
  (0.01 < room_size * (1 - damping) ^ (i + 1))%Q.
Proof. unfold tap_included, decay. apply gtb_true_iff. Qed.

Lemma tap_included_false_iff (room_size damping : Q) (i : Z) :
  tap_included room_size damping i = false <->
  (room_size * (1 - damping) ^ (i + 1) <= 0.01)%Q.
Proof. unfold tap_included, decay. apply gtb_false_iff. Qed.

Lemma reverb_body_unfold (p : params) (i : Z) (st : locals) :
  reverb_body p i st =
  if tap_included (room_size p) (damping p) i
  then add_tap (delay p * (i + 1)) i st
  else Ok st.
Proof. reflexivity. Qed.

(** The loop over [range(3)] does the same as a loop over the included
    taps alone that adds a tap in every pass. *)
Lemma for_in_included (p : params) (xs : list Z) (st : locals) :
  for_in xs (reverb_body p) st =
  for_in (List.filter (tap_included (room_size p) (damping p)) xs)
         (fun i => add_tap (delay p * (i + 1)) i) st.
Proof.
  revert st. induction xs as [|i xs IH]; intros st; simpl; [reflexivity|].
  rewrite reverb_body_unfold.
  destruct (tap_included (room_size p) (damping p) i) eqn:E; simpl.
  - destruct (add_tap (delay p * (i + 1)) i st); simpl; [apply IH | reflexivity].
  - apply IH.
Qed.


(** The variable [reverb] is never assigned in the loop: whatever the
    passes do, it still holds the clip the stage started from. *)
Lemma reverb_body_keeps_reverb (p : params) (i : Z) (st st' : locals) :
  reverb_body p i st = Ok st' -> reverb st' = reverb st.
Proof.
  rewrite reverb_body_unfold.
  destruct (tap_included _ _ i).
  - unfold add_tap. intros H.
    apply result_bind_Ok in H as (d & _ & H).
    apply result_bind_Ok in H as (a' & _ & H).
    injection H as <-. reflexivity.
  - intros [= <-]. reflexivity.
Qed.

Lemma for_in_keeps_reverb (p : params) (xs : list Z) (st st' : locals) :
  for_in xs (reverb_body p) st = Ok st' -> reverb st' = reverb st.
Proof.
  revert st. induction xs as [|i xs IH]; intros st; simpl.
  - intros [= <-]. reflexivity.
  - intros H. apply result_bind_Ok in H as (st1 & H1 & H2).
    rewrite (IH _ H2). exact (reverb_body_keeps_reverb _ _ _ _ H1).
Qed.

Lemma tap_pass_unfold (p : params) (src : AudioSegment) (i : Z)
  (acc : AudioSegment) :
  tap_pass p src i acc =
  if tap_included (room_size p) (damping p) i
  then delayed_tap (delay p * (i + 1)) src i ≫= mix_tap acc
  else Ok acc.
Proof. reflexivity. Qed.

Lemma for_in_tap_pass (p : params) (src : AudioSegment) (xs : list Z)
  (acc : AudioSegment) :
  for_in xs (reverb_body p) (Locals acc src) =
  for_in xs (tap_pass p src) acc ≫= fun r => Ok (Locals r src).
Proof.
  revert acc. induction xs as [|i xs IH]; intros acc; simpl; [reflexivity|].
  rewrite reverb_body_unfold, tap_pass_unfold. unfold add_tap. simpl.
  destruct (tap_included _ _ i); simpl; [|apply IH].
  destruct (delayed_tap _ src i) as [d|e]; simpl; [|reflexivity].
  destruct (mix_tap acc d) as [a'|e]; simpl; [apply IH | reflexivity].
Qed.

Lemma mix_tap_fit (acc d : AudioSegment) :
  mix_tap acc d = fit_tap acc d ≫= fun t => overlay acc t 0.
Proof.
  unfold mix_tap, fit_tap. destruct (seg_len d >? seg_len acc); reflexivity.
Qed.

(** C2, amended. With [wet_level > 0] and [delay > 0], tap [i] is
    [delay * (i + 1)] ms of silence followed by the clip the reverb
    stage was given, attenuated as a whole by [20 * (i + 1)] dB, and it
    is overlaid at position 0 onto the accumulated signal.  The taps are
    all built from the stage's input: a later tap does not contain an
    earlier one. *)
Theorem reverb_taps_from_input (p : params) (audio0 : AudioSegment) :
  (0 < wet_level p)%Q -> 0 < delay p ->
  reverb_stage p audio0 = for_in [0; 1; 2] (tap_pass p audio0) audio0 /\
  (forall i acc,
     tap_included (room_size p) (damping p) i = true ->
     tap_pass p audio0 i acc =
       (s ← silent (delay p * (i + 1));
        joined ← append s audio0;
        delayed ← apply_gain joined (- (20 * (i + 1)));
        t ← fit_tap acc delayed;
        overlay acc t 0)) /\
  (forall xs st st',
     reverb st = audio0 ->
     for_in xs (reverb_body p) st = Ok st' -> reverb st' = audio0).
Proof.
  intros Hw Hd. split; [|split].
  - unfold reverb_stage.
    replace (gtb (wet_level p) 0 && (delay p >? 0)) with true.
    + change (range 3) with [0; 1; 2]. rewrite for_in_tap_pass.
      destruct (for_in [0; 1; 2] (tap_pass p audio0) audio0); reflexivity.
    + symmetry. apply andb_true_iff. split; [apply gtb_true_iff; exact Hw|].
      apply Z.gtb_lt. exact Hd.
  - intros i acc Hi. unfold tap_pass. rewrite Hi.
    unfold delayed_tap, seg_add, seg_sub.
    destruct (silent _) as [s|e]; simpl; [|reflexivity].
    destruct (append s audio0) as [j|e]; simpl; [|reflexivity].
    destruct (apply_gain j _) as [d|e]; simpl; [|reflexivity].
    apply mix_tap_fit.
  - intros xs st st' Hst H. rewrite <- Hst. exact (for_in_keeps_reverb _ _ _ _ H).
Qed.

(** ** Lengths *)

Section Laws.
Context {Laws : LengthLaws L}.

Lemma fit_tap_len (acc d t : AudioSegment) :
  fit_tap acc d = Ok t -> seg_len t <= seg_len acc.
Proof.
  unfold fit_tap. destruct (seg_len d >? seg_len acc) eqn:E.
  - apply slice_to_len. apply seg_len_nonneg.
  - intros [= <-]. rewrite Z.gtb_ltb in E. apply Z.ltb_ge in E. exact E.
Qed.

Lemma mix_tap_len (acc d out : AudioSegment) :
  mix_tap acc d = Ok out -> seg_len out = seg_len acc.
Proof.
  rewrite mix_tap_fit. intros H.
  apply result_bind_Ok in H as (t & _ & H). exact (overlay_len _ _ _ _ H).
Qed.

Lemma tap_pass_len (p : params) (src acc out : AudioSegment) (i : Z) :
  tap_pass p src i acc = Ok out -> seg_len out = seg_len acc.
Proof.
  unfold tap_pass. destruct (tap_included _ _ i).
  - intros H. apply result_bind_Ok in H as (d & _ & H).
    exact (mix_tap_len _ _ _ H).
  - intros [= <-]. reflexivity.
Qed.

Lemma for_in_tap_pass_len (p : params) (src : AudioSegment) (xs : list Z)
  (acc out : AudioSegment) :
  for_in xs (tap_pass p src) acc = Ok out -> seg_len out = seg_len acc.
Proof.
  revert acc. induction xs as [|i xs IH]; intros acc; simpl.
  - intros [= <-]. reflexivity.
  - intros H. apply result_bind_Ok in H as (a1 & H1 & H2).
    rewrite (IH _ H2). exact (tap_pass_len _ _ _ _ _ H1).
Qed.

End Laws.


End Stages.

(** ** The overall level *)

Lemma ln_10_pos : (0 < ln 10)%R.
Proof. rewrite <- ln_1. apply ln_increasing; lra. Qed.

Lemma log10_Rinv (x : R) : (0 < x)%R -> log10 (/ x) = (- log10 x)%R.
Proof.
  intros H. unfold log10. rewrite ln_Rinv by exact H.
  pose proof ln_10_pos. field. lra.
Qed.

Lemma log10_pow_lt (x : R) (n m : nat) :
  (0 < x)%R -> (x ^ n < 10 ^ m)%R -> (INR n * log10 x < INR m)%R.
Proof.
  intros Hx H. pose proof ln_10_pos as H10.
  assert (Hp : (0 < x ^ n)%R) by (apply pow_lt; exact Hx).
  apply ln_increasing in H; [|exact Hp].
  rewrite !ln_pow in H by lra.
  unfold log10.
  apply (Rmult_lt_reg_r (ln 10)); [exact H10|].
  replace (INR n * (ln x / ln 10) * ln 10)%R with (INR n * ln x)%R by (field; lra).
  exact H.
Qed.

Lemma log10_pow_gt (x : R) (n m : nat) :
  (0 < x)%R -> (10 ^ m < x ^ n)%R -> (INR m < INR n * log10 x)%R.
Proof.
  intros Hx H. pose proof ln_10_pos as H10.
  assert (Hp : (0 < 10 ^ m)%R) by (apply pow_lt; lra).
  apply ln_increasing in H; [|exact Hp].
  rewrite !ln_pow in H by lra.
  unfold log10.
  apply (Rmult_lt_reg_r (ln 10)); [exact H10|].
  replace (INR n * (ln x / ln 10) * ln 10)%R with (INR n * ln x)%R by (field; lra).
  exact H.
Qed.

Lemma log10_10_pow (m : nat) : log10 (10 ^ m) = INR m.
Proof.
  unfold log10. rewrite ln_pow by lra. pose proof ln_10_pos. field. lra.
Qed.

(** [int] of a real number keeps the integer part of the magnitude and the sign. *)
Lemma int_R_neg (x : R) (k : Z) :
  (0 <= k)%Z -> (IZR k <= - x < IZR k + 1)%R -> int_R x = (- k)%Z.
Proof.
  intros Hk [H1 H2]. unfold int_R.
  destruct (Rle_dec 0 x) as [Hx|Hx].
  - assert (x = 0%R) as -> by (apply IZR_le in Hk; lra).
    assert (k = 0%Z) as ->.
    { apply IZR_le in Hk. apply eq_IZR. lra. }
    symmetry. apply Int_part_spec. change (- 0)%Z with 0%Z. lra.
  - f_equal. symmetry. apply Int_part_spec. lra.
Qed.

Lemma int_R_abs (x : R) :
  (IZR (Z.abs (int_R x)) <= Rabs x < IZR (Z.abs (int_R x)) + 1)%R.
Proof.
  unfold int_R. destruct (Rle_dec 0 x) as [Hx|Hx].
  - destruct (base_Int_part x) as [H1 H2].
    assert (0 <= Int_part x)%Z.
    { apply Z.lt_succ_r. apply lt_IZR. rewrite succ_IZR. lra. }
    rewrite Z.abs_eq by assumption. rewrite Rabs_pos_eq by exact Hx. lra.
  - destruct (base_Int_part (- x)) as [H1 H2].
    assert (0 <= Int_part (- x))%Z.
    { apply Z.lt_succ_r. apply lt_IZR. rewrite succ_IZR. lra. }
    rewrite Z.abs_opp, Z.abs_eq by assumption.
    rewrite Rabs_left by lra. lra.
Qed.

Lemma max_floor (dry_level : Q) :
  (dry_level <= 0.01)%Q -> Q2R (Py.max dry_level 0.01) = (/ 10 ^ 2)%R.
Proof.
  intros H. unfold Py.max. destruct (gtb 0.01 dry_level) eqn:G.
  - unfold Q2R. simpl. lra.
  - apply gtb_false_iff in G.
    rewrite (Qeq_eqR dry_level 0.01%Q) by (apply Qle_antisym; assumption).
    unfold Q2R. simpl. lra.
Qed.

(** At the floor the logarithm is exact: [20 * log10(0.01) = -40]. *)
Lemma log10_floor (dry_level : Q) :
  (dry_level <= 0.01)%Q ->
  (20 * log10 (Q2R (Py.max dry_level 0.01)) = -40)%R.
Proof.
  intros H. rewrite (max_floor _ H), log10_Rinv by (apply pow_lt; lra).
  rewrite log10_10_pow. simpl. lra.
Qed.

Lemma level_db_floor (dry_level : Q) :
  (dry_level <= 0.01)%Q -> level_db dry_level = (-40)%Z.
Proof.
  intros H. unfold level_db. rewrite (log10_floor _ H).
  apply (int_R_neg _ 40); [lia|]. lra.
Qed.

(** For the default [dry_level = 0.2]: [20 * log10(0.2)] is about
    -13.98, between -14 and -13. *)
Lemma log10_default :
  (-14 < 20 * log10 (Q2R (Py.max 0.2 0.01)) < -13)%R.
Proof.
  assert (E : Q2R (Py.max 0.2 0.01) = (/ 5)%R).
  { unfold Py.max. simpl. unfold Q2R. simpl. lra. }
  rewrite E, log10_Rinv by lra.
  pose proof (log10_pow_lt 5 20 14) as H1.
  pose proof (log10_pow_gt 5 20 13) as H2.
  simpl in H1, H2. lra.
Qed.

Lemma level_db_default : level_db 0.2 = (-13)%Z.
Proof.
  unfold level_db. pose proof log10_default as H.
  apply (int_R_neg _ 13); [lia|]. lra.
Qed.

Section Gain.
Context {L : AudioLib}.

Lemma gain_stage_unfold (dry_level : Q) (audio : AudioSegment) :
  gain_stage dry_level audio =
  if ltb dry_level 1 then apply_gain audio (- level_db dry_level) else Ok audio.
Proof. reflexivity. Qed.

(** C3, amended. The level step does nothing when [dry_level >= 1.0].
    When [dry_level < 1.0] it changes the gain of the whole clip by a
    whole number of decibels: the magnitude of
    [20 * log10(max(dry_level, 0.01))] with its fraction dropped.  For
    every [dry_level <= 0.01] that is 40 dB. *)
Theorem gain_stage_level (dry_level : Q) (audio : AudioSegment) :
  ((1 <= dry_level)%Q -> gain_stage dry_level audio = Ok audio) /\
  ((dry_level < 1)%Q ->
     exists g : Z,
       gain_stage dry_level audio = apply_gain audio g /\
       (IZR (Z.abs g) <= Rabs (20 * log10 (Q2R (Py.max dry_level 0.01)))
        < IZR (Z.abs g) + 1)%R) /\
  ((dry_level <= 0.01)%Q ->
     exists g : Z,
       gain_stage dry_level audio = apply_gain audio g /\ Z.abs g = 40).
Proof.
  rewrite gain_stage_unfold. split; [|split].
  - intros H. apply ltb_false_iff in H. rewrite H. reflexivity.
  - intros H. apply ltb_true_iff in H. rewrite H.
    exists (- level_db dry_level). split; [reflexivity|].
    rewrite Z.abs_opp. apply int_R_abs.
  - intros H.
    assert (H1 : ltb dry_level 1 = true).
    { apply ltb_true_iff. apply Qle_lt_trans with (1 := H). reflexivity. }
    rewrite H1, (level_db_floor _ H). exists 40. split; reflexivity.
Qed.

End Gain.

(** ** The two functions *)

Section Functions.
Context {L : AudioLib}.

(** The [try] block of [slowedreverb], case by case. *)
Lemma slowedreverb_try_unfold (input_file output_file : string) (p : params)
  (fs : files) :
  slowedreverb_try input_file output_file p fs =
  match fs !! input_file with
  | None => (fs, Raise FileNotFoundError)
  | Some data =>
      match decode "wav" data with
      | Raise e => (fs, Raise e)
      | Ok audio =>
          match effects p audio with
          | Raise e => (fs, Raise e)
          | Ok audio' =>
              match encode audio' "wav" None with
              | Ok bytes => (<[output_file := bytes]> fs, Ok output_file)
              | Raise e => (<[output_file := []]> fs, Raise e)
              end
          end
      end
  end.
Proof.
  unfold slowedreverb_try, mbind, io_bind, from_wav, lift, export.
  destruct (fs !! input_file) as [data|]; [|reflexivity].
  destruct (decode "wav" data) as [a|e]; [|reflexivity].
  destruct (effects p a) as [a'|e]; [|reflexivity].
  destruct (encode a' "wav" None); reflexivity.
Qed.

(** The [try] block writes to the output path only. *)
Lemma slowedreverb_try_frame (input_file output_file : string) (p : params)
  (fs fs' : files) (r : result string) (path : string) :
  slowedreverb_try input_file output_file p fs = (fs', r) ->
  path <> output_file -> fs' !! path = fs !! path.
Proof.
  rewrite slowedreverb_try_unfold. intros H Hne.
  destruct (fs !! input_file) as [data|]; [|injection H as <- _; reflexivity].
  destruct (decode "wav" data) as [a|e]; [|injection H as <- _; reflexivity].
  destruct (effects p a) as [a'|e]; [|injection H as <- _; reflexivity].
  destruct (encode a' "wav" None); injection H as <- _;
    apply lookup_insert_ne; congruence.
Qed.

Lemma slowedreverb_unfold (input_file output_file : string) (p : params)
  (fs : files) :
  slowedreverb input_file output_file p fs =
  match slowedreverb_try input_file output_file p fs with
  | (fs', Ok r) => (fs', Ok r)
  | (fs1, Raise _) =>
      match copy2 input_file output_file fs1 with
      | (fs2, Ok _) => (fs2, Ok output_file)
      | (fs2, Raise e') => (fs2, Raise e')
      end
  end.
Proof.
  unfold slowedreverb, try_except.
  destruct (slowedreverb_try input_file output_file p fs) as [fs1 [r|e]];
    [reflexivity|].
  unfold slowedreverb_except, mbind, io_bind.
  destruct (copy2 input_file output_file fs1) as [fs2 [[]|e']]; reflexivity.
Qed.


(** Every step can be the one that raises. *)
Lemma slowedreverb_try_raises (input_file output_file : string) (p : params)
  (fs : files) :
  (exists fs1 e, slowedreverb_try input_file output_file p fs = (fs1, Raise e)) <->
  fs !! input_file = None \/
  exists data, fs !! input_file = Some data /\
    ((exists e, decode "wav" data = Raise e) \/
     exists audio, decode "wav" data = Ok audio /\
       ((exists e, effects p audio = Raise e) \/
        exists audio', effects p audio = Ok audio' /\
          exists e, encode audio' "wav" None = Raise e)).
Proof.
  rewrite slowedreverb_try_unfold.
  destruct (fs !! input_file) as [data|].
  2:{ split; [intros _; left; reflexivity | intros _; eauto]. }
  destruct (decode "wav" data) as [a|e] eqn:Ed.
  2:{ split; [intros _; right; exists data; eauto | intros _; eauto]. }
  destruct (effects p a) as [a'|e] eqn:Ee.
  2:{ split; [intros _; right; exists data; eauto 8 | intros _; eauto]. }
  destruct (encode a' "wav" None) as [bytes|e] eqn:Ex.
  - split.
    + intros (fs1 & e & [=]).
    + intros [[=] | (d & [= <-] & [[e He] | (a0 & Ha0 & H)])];
        [congruence|].
      assert (a0 = a) as -> by congruence.
      destruct H as [[e He] | (a1 & Ha1 & e & He)]; [congruence|].
      assert (a1 = a') as -> by congruence. congruence.
  - split; [intros _; right; exists data; eauto 12 | intros _; eauto].
Qed.

Lemma effects_Ok (p : params) (audio0 out : AudioSegment) :
  effects p audio0 = Ok out <->
  exists stretched mixed staged filtered,
    time_stretch (slow_factor p) audio0 = Ok stretched /\
    reverb_stage p stretched = Ok mixed /\
    gain_stage (dry_level p) mixed = Ok staged /\
    low_pass_filter staged 8000 = Ok filtered /\
    normalize filtered = Ok out.
Proof.
  unfold effects, tone_stage. split.
  - intros H.
    apply result_bind_Ok in H as (a1 & H1 & H).
    apply result_bind_Ok in H as (a2 & H2 & H).
    apply result_bind_Ok in H as (a3 & H3 & H).
    apply result_bind_Ok in H as (a4 & H4 & H).
    exists a1, a2, a3, a4. auto.
  - intros (a1 & a2 & a3 & a4 & H1 & H2 & H3 & H4 & H5).
    rewrite H1. simpl. rewrite H2. simpl. rewrite H3. simpl.
    rewrite H4. simpl. exact H5.
Qed.

(** C8. Whenever the [try] block of [slowedreverb] completes, whatever
    the settings, the clip of the level step went through the low-pass
    filter with cutoff 8000 Hz and the filtered clip through
    [normalize], in this order; the normalised clip is what is written
    to the output path, and none of its samples is above the ceiling of
    the sample format. *)
Theorem tone_shaping_on_success (Laws : RangeLaws L)
  (input_file output_file : string) (p : params) (fs fs' : files) (r : string) :
  slowedreverb_try input_file output_file p fs = (fs', Ok r) ->
  exists data0 decoded stretched mixed staged filtered normalized bytes,
    fs !! input_file = Some data0 /\
    decode "wav" data0 = Ok decoded /\
    time_stretch (slow_factor p) decoded = Ok stretched /\
    reverb_stage p stretched = Ok mixed /\
    gain_stage (dry_level p) mixed = Ok staged /\
    low_pass_filter staged 8000 = Ok filtered /\
    normalize filtered = Ok normalized /\
    tone_stage staged = Ok normalized /\
    seg_max normalized <= max_possible_amplitude normalized /\
    encode normalized "wav" None = Ok bytes /\
    fs' = <[output_file := bytes]> fs /\
    r = output_file /\
    slowedreverb input_file output_file p fs = (fs', Ok output_file).
Proof.
  intros H. pose proof H as Htry. rewrite slowedreverb_try_unfold in H.
  destruct (fs !! input_file) as [data0|]; [|discriminate].
  destruct (decode "wav" data0) as [a0|e] eqn:Ed; [|discriminate].
  destruct (effects p a0) as [a'|e] eqn:Ee; [|discriminate].
  destruct (encode a' "wav" None) as [bytes|e] eqn:Ex; [|discriminate].
  injection H as <- <-.
  apply effects_Ok in Ee as (a1 & a2 & a3 & a4 & H1 & H2 & H3 & H4 & H5).
  exists data0, a0, a1, a2, a3, a4, a', bytes.
  repeat split; try assumption; try reflexivity.
  - unfold tone_stage. rewrite H4. exact H5.
  - exact (normalize_max _ _ H5).
  - rewrite slowedreverb_unfold, Htry. reflexivity.
Qed.

(** The [try] block of [msc_to_mp3_inf], case by case. *)
Lemma msc_to_mp3_inf_try_unfold (wav_file : string) (fs : files) :
  msc_to_mp3_inf_try wav_file fs =
  match fs !! wav_file with
  | None => (fs, Raise FileNotFoundError)
  | Some data =>
      match decode "wav" data with
      | Raise e => (fs, Raise e)
      | Ok audio =>
          let mp3_file := mp3_name wav_file in
          match encode audio "mp3" (Some "192k") with
          | Ok bytes => (<[mp3_file := bytes]> fs, Ok mp3_file)
          | Raise e => (<[mp3_file := []]> fs, Raise e)
          end
      end
  end.
Proof.
  unfold msc_to_mp3_inf_try, mbind, io_bind, from_wav, export.
  destruct (fs !! wav_file) as [data|]; [|reflexivity].
  destruct (decode "wav" data) as [a|e]; [|reflexivity].
  simpl. destruct (encode a "mp3" (Some "192k")); reflexivity.
Qed.

(** C9. [msc_to_mp3_inf] always returns a path and never raises: when
    the WAV file is read and decoded and the clip is encoded as MP3, at
    the bitrate 192k, the MP3 bytes are written and the MP3 path is
    returned; when reading, decoding or encoding raises, the input path
    is returned. *)
Theorem msc_to_mp3_inf_returns (wav_file : string) (fs : files) :
  exists fs' path,
    msc_to_mp3_inf wav_file fs = (fs', Ok path) /\
    ((exists data audio bytes,
        fs !! wav_file = Some data /\
        decode "wav" data = Ok audio /\
        encode audio "mp3" (Some "192k") = Ok bytes /\
        path = mp3_name wav_file /\
        fs' = <[path := bytes]> fs /\
        msc_to_mp3_inf_try wav_file fs = (fs', Ok path))
     \/
     (exists e,
        msc_to_mp3_inf_try wav_file fs = (fs', Raise e) /\
        path = wav_file /\
        (fs !! wav_file = None \/
         exists data, fs !! wav_file = Some data /\
           (decode "wav" data = Raise e \/
            exists audio, decode "wav" data = Ok audio /\
              encode audio "mp3" (Some "192k") = Raise e)))).
Proof.
  unfold msc_to_mp3_inf, try_except. rewrite msc_to_mp3_inf_try_unfold.
  destruct (fs !! wav_file) as [data|] eqn:Ef.
  2:{ exists fs, wav_file. split; [reflexivity|]. right.
      exists FileNotFoundError. auto. }
  destruct (decode "wav" data) as [a|e] eqn:Ed.
  2:{ exists fs, wav_file. split; [reflexivity|]. right.
      exists e. split; [reflexivity|]. split; [reflexivity|].
      right. exists data. auto. }
  simpl. destruct (encode a "mp3" (Some "192k")) as [bytes|e] eqn:Ex.
  - eexists _, _. split; [reflexivity|]. left.
    exists data, a, bytes. auto 10.
  - eexists _, _. split; [reflexivity|]. right.
    exists e. split; [reflexivity|]. split; [reflexivity|].
    right. exists data. split; [reflexivity|]. right. exists a. auto.
Qed.

End Functions.

(** ** [str.replace] *)

Lemma replace_absent (s old new : string) :
  contains old s = false -> replace s old new = s.
Proof.
  destruct old as [|a old'].
  { destruct s; discriminate. }
  unfold replace. induction s as [|c s IH]; [reflexivity|].
  intros H. cbn [contains] in H. apply orb_false_iff in H as [H1 H2].
  cbn [replace_from]. rewrite H1, (IH H2). reflexivity.
Qed.

Lemma is_prefix_wav_inv (s : string) :
  is_prefix ".wav" s = true ->
  exists t, s = String "." (String "w" (String "a" (String "v" t))).
Proof.
  intros H.
  destruct s as [|c1 [|c2 [|c3 [|c4 t]]]]; cbn [is_prefix] in H;
    repeat match type of H with
    | (if Ascii.eqb ?a ?b then _ else _) = true =>
        let E := fresh in destruct (Ascii.eqb a b) eqn:E;
        [apply Ascii.eqb_eq in E; subst | discriminate]
    end; try discriminate.
  exists t. reflexivity.
Qed.

Lemma replace_wav_match (t : string) :
  mp3_name (String "." (String "w" (String "a" (String "v" t)))) =
  String "." (String "m" (String "p" (String "3" (mp3_name t)))).
Proof. reflexivity. Qed.

Lemma replace_wav_step (c : Ascii.ascii) (s : string) :
  is_prefix ".wav" (String c s) = false -> mp3_name (String c s) = String c (mp3_name s).
Proof. intros H. unfold mp3_name, replace. cbn [replace_from]. rewrite H. reflexivity. Qed.

(** A pattern without a full stop begins the result exactly when it
    begins the string. *)
Lemma is_prefix_replace_wav (q s : string) :
  dotfree q = true -> is_prefix q (mp3_name s) = is_prefix q s.
Proof.
  revert s. induction q as [|a q IH]; intros s Hq; [reflexivity|].
  simpl in Hq. apply andb_true_iff in Hq as [Ha Hq].
  apply negb_true_iff in Ha.
  destruct s as [|c s]; [reflexivity|].
  destruct (is_prefix ".wav" (String c s)) eqn:E.
  - apply is_prefix_wav_inv in E as [t E]. rewrite E, replace_wav_match.
    cbn [is_prefix]. rewrite Ha. reflexivity.
  - rewrite (replace_wav_step _ _ E). simpl. rewrite (IH _ Hq). reflexivity.
Qed.

Lemma is_prefix_wav_replace (s : string) : is_prefix ".wav" (mp3_name s) = false.
Proof.
  destruct s as [|c s]; [reflexivity|].
  destruct (is_prefix ".wav" (String c s)) eqn:E.
  - apply is_prefix_wav_inv in E as [t E]. rewrite E. reflexivity.
  - rewrite (replace_wav_step _ _ E).
    change (is_prefix ".wav" (String c (mp3_name s)))
      with (if Ascii.eqb "."%char c then is_prefix "wav" (mp3_name s) else false).
    rewrite is_prefix_replace_wav by reflexivity.
    exact E.
Qed.

Lemma contains_replace_from (k : nat) (s : string) :
  contains ".wav" (replace_from k ".wav" ".mp3" s) = false.
Proof.
  revert k. induction s as [|c s IH]; intros k; [reflexivity|].
  destruct k as [|k]; [|apply IH].
  pose proof (is_prefix_wav_replace (String c s)) as P. unfold mp3_name, replace in P.
  cbn [replace_from] in P |- *.
  destruct (is_prefix ".wav" (String c s)) eqn:E.
  - change (String.length ".wav") with 4%nat. simpl Nat.pred.
    specialize (IH 3%nat). revert IH.
    generalize (replace_from 3 ".wav" ".mp3" s). intros r IH.
    simpl. exact IH.
  - cbn [contains]. rewrite P. apply IH.
Qed.


Section Mp3Path.
Context {L : AudioLib}.

(** C10. The MP3 path is the input path with every occurrence of
    [.wav] replaced by [.mp3], from the left: no [.wav] is left in it.
    For an input path without [.wav] the MP3 path is the input path
    itself: that path is returned, and the MP3 bytes are written over
    the file the clip was read from. *)
Theorem msc_to_mp3_inf_path (wav_file : string) (fs : files) :
  (forall data audio bytes,
     fs !! wav_file = Some data ->
     decode "wav" data = Ok audio ->
     encode audio "mp3" (Some "192k") = Ok bytes ->
     msc_to_mp3_inf wav_file fs =
       (<[mp3_name wav_file := bytes]> fs, Ok (mp3_name wav_file))) /\
  mp3_name wav_file = replace wav_file ".wav" ".mp3" /\
  mp3_name "" = "" /\
  (forall t,
     mp3_name (String "." (String "w" (String "a" (String "v" t)))) =
     String "." (String "m" (String "p" (String "3" (mp3_name t))))) /\
  (forall c s,
     is_prefix ".wav" (String c s) = false ->
     mp3_name (String c s) = String c (mp3_name s)) /\
  contains ".wav" (mp3_name wav_file) = false /\
  (contains ".wav" wav_file = false ->
     mp3_name wav_file = wav_file /\
     (exists fs', msc_to_mp3_inf wav_file fs = (fs', Ok wav_file)) /\
     (forall data audio bytes,
        fs !! wav_file = Some data ->
        decode "wav" data = Ok audio ->
        encode audio "mp3" (Some "192k") = Ok bytes ->
        msc_to_mp3_inf wav_file fs = (<[wav_file := bytes]> fs, Ok wav_file) /\
        (<[wav_file := bytes]> fs) !! wav_file = Some bytes)).
Proof.
  assert (Hok : forall data audio bytes,
     fs !! wav_file = Some data ->
     decode "wav" data = Ok audio ->
     encode audio "mp3" (Some "192k") = Ok bytes ->
     msc_to_mp3_inf wav_file fs =
       (<[mp3_name wav_file := bytes]> fs, Ok (mp3_name wav_file))).
  { intros data a bytes Hf Hd He.
    unfold msc_to_mp3_inf, try_except.
    rewrite msc_to_mp3_inf_try_unfold, Hf, Hd. simpl. rewrite He. reflexivity. }
  split; [exact Hok|].
  split; [reflexivity|].
  split; [reflexivity|].
  split; [apply replace_wav_match|].
  split; [apply replace_wav_step|].
  split; [apply (contains_replace_from 0)|].
  intros Hno.
  assert (Hsame : mp3_name wav_file = wav_file) by exact (replace_absent _ _ _ Hno).
  split; [exact Hsame|]. split.
  - unfold msc_to_mp3_inf, try_except. rewrite msc_to_mp3_inf_try_unfold.
    destruct (fs !! wav_file) as [data|]; [|eexists; reflexivity].
    destruct (decode "wav" data) as [a|e]; [|eexists; reflexivity].
    simpl. rewrite Hsame.
    destruct (encode a "mp3" (Some "192k")); eexists; reflexivity.
  - intros data a bytes Hf Hd He.
    rewrite (Hok _ _ _ Hf Hd He), Hsame.
    split; [reflexivity | apply lookup_insert_eq].
Qed.

End Mp3Path.

(** ** The reference implementation *)

Module RefPCMFacts.
Import RefPCM.

Lemma mix_length (xs ys : list Z) : length (mix xs ys) = length xs.
Proof.
  revert ys. induction xs as [|x xs IH]; intros [|y ys]; simpl; auto.
Qed.

Lemma clamp16_abs (x : Z) : Z.abs (clamp16 x) <= 32768.
Proof. unfold clamp16. lia. Qed.

Lemma peak_bound (m : Z) (a : pcm) :
  0 <= m -> Forall (fun s => Z.abs s <= m) (samples a) -> peak a <= m.
Proof.
  intros Hm. unfold peak. induction 1 as [|s xs Hs _ IH]; simpl; lia.
Qed.

Lemma len_ms_nonneg (a : pcm) : 0 <= len_ms a.
Proof.
  unfold len_ms. destruct (rate a <=? 0) eqn:E; [lia|].
  apply Z.leb_gt in E. apply Z.div_pos; unfold frame_count; lia.
Qed.

Lemma mix_at_len (a b : pcm) (pos : Z) (c : pcm) :
  mix_at a b pos = Ok c -> len_ms c = len_ms a.
Proof.
  unfold mix_at. intros H. apply result_bind_Ok in H as (b' & _ & [= <-]).
  unfold len_ms, frame_count. simpl.
  rewrite length_app, mix_length, <- length_app, take_drop. reflexivity.
Qed.

Lemma slice_len (a : pcm) (ms : Z) (c : pcm) :
  0 <= ms -> slice a ms = Ok c -> len_ms c <= ms.
Proof.
  intros Hms [= <-]. unfold len_ms, frame_count. simpl.
  destruct (rate a <=? 0) eqn:E; [lia|]. apply Z.leb_gt in E.
  rewrite length_take.
  assert (H1 : 0 <= ms * rate a / 1000) by (apply Z.div_pos; lia).
  assert (H2 : 1000 * (ms * rate a / 1000) <= ms * rate a)
    by (apply Z.mul_div_le; lia).
  apply Z.lt_succ_r. apply Z.div_lt_upper_bound; lia.
Qed.

Lemma normalise_max (a c : pcm) : normalise a = Ok c -> peak c <= 32768.
Proof.
  unfold normalise. destruct (peak a =? 0) eqn:E.
  - intros [= <-]. apply Z.eqb_eq in E. lia.
  - intros [= <-]. apply peak_bound; [lia|]. simpl.
    apply Forall_map. apply Forall_forall. intros s _. apply clamp16_abs.
Qed.

#[export] Instance length_laws : LengthLaws lib.
Proof.
  split.
  - exact mix_at_len.
  - exact slice_len.
  - exact len_ms_nonneg.
Qed.

#[export] Instance range_laws : RangeLaws lib.
Proof. split. exact normalise_max. Qed.

End RefPCMFacts.

(** ** The code on concrete clips and files *)

Import RefPCM.

(** The click at [slow_factor = 0]. *)
Lemma time_stretch_identity_witness :
  (0 == 0)%Q /\ time_stretch 0 click = Ok click.
Proof.
  split; [reflexivity|].
  apply (time_stretch_identity (L := lib) click 0). reflexivity.
Defined.

(** The default settings with the wet level turned down to 0. *)
Lemma reverb_stage_noop_witness :
  (wet_level (Params 0.75 0.5 0 0.2 2 0.08) <= 0)%Q /\
  reverb_stage (Params 0.75 0.5 0 0.2 2 0.08) click = Ok click.
Proof.
  split; [apply Qle_refl|].
  apply (reverb_stage_noop (L := lib)). left. apply Qle_refl.
Defined.

(** The echo settings pass the guard of the reverb effect. *)
Lemma reverb_taps_from_input_witness :
  reverb_stage echo_params click =
  for_in [0; 1; 2] (tap_pass echo_params click) click.
Proof.
  apply (reverb_taps_from_input (L := lib) echo_params click); reflexivity.
Defined.


(** C2, as stated, fails: with three taps one millisecond apart the
    code leaves 1 in frame 33 of the click, where taps built from the
    accumulated signal would leave 2. *)
Lemma reverb_taps_do_not_compound :
  reverb_stage echo_params click <> reverb_stage_compounding echo_params click /\
  (exists out, reverb_stage echo_params click = Ok out /\
     samples out !! 33%nat = Some 1) /\
  (exists out, reverb_stage_compounding echo_params click = Ok out /\
     samples out !! 33%nat = Some 2).
Proof.
  split; [|split].
  - vm_compute. discriminate.
  - eexists. split; [vm_compute; reflexivity | reflexivity].
  - eexists. split; [vm_compute; reflexivity | reflexivity].
Qed.

(** C3, as stated, fails: for the default [dry_level = 0.2] the claim
    asks for a change of about -13.98 dB and the code applies a change
    of 13 dB; at the floor the claim asks for -40 dB and the code
    applies 40 dB, which drives the click into saturation. *)
Lemma gain_stage_not_the_logarithm :
  gain_stage 0.2 click = apply_gain click 13 /\
  (-14 < 20 * log10 (Q2R (Py.max 0.2 0.01)) < -13)%R /\
  gain_stage 0.01 click = apply_gain click 40 /\
  (20 * log10 (Q2R (Py.max 0.01 0.01)) = -40)%R /\
  apply_gain click 40 = Ok (Pcm 11025 (32767 :: repeat 0 43)) /\
  apply_gain click (-40) = Ok (Pcm 11025 (10 :: repeat 0 43)).
Proof.
  split; [|split; [|split; [|split; [|split]]]].
  - rewrite gain_stage_unfold, level_db_default. reflexivity.
  - exact log10_default.
  - rewrite gain_stage_unfold, level_db_floor by apply Qle_refl. reflexivity.
  - apply log10_floor. apply Qle_refl.
  - vm_compute. reflexivity.
  - vm_compute. reflexivity.
Qed.



(** Evaluate a closed call. *)
Ltac run t :=
  let v := eval vm_compute in t in
  replace t with v by (vm_compute; reflexivity).

(** The effects on the click with the default settings: the level step
    is [apply_gain(13)], and the normalised peak is 32393. *)
Lemma effects_default_click :
  exists out, effects default_params click = Ok out /\ seg_max out = 32393.
Proof.
  unfold effects. simpl slow_factor. simpl dry_level.
  run (time_stretch 0.08 click). cbn [mbind result_bind].
  match goal with |- context [reverb_stage ?p ?a] => run (reverb_stage p a) end.
  cbn [mbind result_bind].
  rewrite gain_stage_unfold, level_db_default.
  change (ltb 0.2 1) with true. cbv iota.
  match goal with |- context [apply_gain ?a ?g] => run (apply_gain a g) end.
  cbn [mbind result_bind].
  eexists. split; [vm_compute; reflexivity|]. vm_compute. reflexivity.
Qed.

(** A run that completes: the click with the default settings. *)
Lemma tone_shaping_on_success_witness :
  exists normalized bytes,
    slowedreverb "in.wav" "out.wav" default_params disk =
      (<["out.wav" := bytes]> disk, Ok "out.wav") /\
    encode normalized "wav" None = Ok bytes /\
    seg_max normalized <= max_possible_amplitude normalized.
Proof.
  destruct effects_default_click as (out & Hout & _).
  destruct (slowedreverb_try "in.wav" "out.wav" default_params disk)
    as [fs' [r|e]] eqn:H.
  - destruct (tone_shaping_on_success (L := lib) RefPCMFacts.range_laws
                _ _ _ _ _ _ H)
      as (d0 & a0 & a1 & a2 & a3 & a4 & n & bytes & _ & _ & _ & _ & _ & _ &
          _ & _ & Hmax & Henc & -> & -> & Hrun).
    exists n, bytes. auto.
  - rewrite slowedreverb_try_unfold in H.
    assert (Hd : decode "wav" click_wav = Ok click) by reflexivity.
    change (disk !! "in.wav") with (Some click_wav) in H.
    cbv beta iota in H. rewrite Hd, Hout in H. discriminate.
Defined.

(** ** Further properties of [music.py] *)

From Stdlib Require Import Psatz.

Section MoreStages.
Context {L : AudioLib}.

Lemma decay_values (room_size damping : Q) :
  (decay room_size damping 0 == room_size * (1 - damping))%Q /\
  (decay room_size damping 1 ==
     room_size * ((1 - damping) * (1 - damping)))%Q /\
  (decay room_size damping 2 ==
     room_size * ((1 - damping) * ((1 - damping) * (1 - damping))))%Q.
Proof.
  unfold decay. repeat split; simpl; ring.
Qed.

Lemma tap_included_decay (room_size damping : Q) (i : Z) :
  tap_included room_size damping i = true <->
  (0.01 < decay room_size damping i)%Q.
Proof. apply gtb_true_iff. Qed.

(** X1. With a room size that is not negative and a damping between 0
    and 1, a tap is only added when the taps before it are: the taps
    that the reverb loop adds are the first [n] of the three, for some
    [n]. *)
Theorem included_taps_are_first (p : params) (st : locals) :
  (0 <= room_size p)%Q -> (0 <= damping p)%Q -> (damping p <= 1)%Q ->
  exists n : nat,
    (n <= 3)%nat /\
    List.filter (tap_included (room_size p) (damping p)) [0; 1; 2] = range n /\
    for_in (range 3) (reverb_body p) st =
      for_in (range n) (fun i => add_tap (delay p * (i + 1)) i) st.
Proof.
  intros Hr Hd0 Hd1.
  destruct (decay_values (room_size p) (damping p)) as (E0 & E1 & E2).
  assert (Hx0 : (0 <= 1 - damping p)%Q) by lra.
  assert (Hx1 : (0 <= 1 - (1 - damping p))%Q) by lra.
  assert (Hrx : (0 <= room_size p * (1 - damping p))%Q)
    by (apply Qmult_le_0_compat; assumption).
  assert (H10 : tap_included (room_size p) (damping p) 1 = true ->
                tap_included (room_size p) (damping p) 0 = true).
  { rewrite !tap_included_decay, E0, E1. intros H.
    pose proof (Qmult_le_0_compat _ _ Hrx Hx1). lra. }
  assert (H21 : tap_included (room_size p) (damping p) 2 = true ->
                tap_included (room_size p) (damping p) 1 = true).
  { rewrite !tap_included_decay, E1, E2. intros H.
    pose proof (Qmult_le_0_compat _ _ Hrx Hx0) as Hrxx.
    pose proof (Qmult_le_0_compat _ _ Hrxx Hx1). lra. }
  assert (exists n : nat, (n <= 3)%nat /\
    List.filter (tap_included (room_size p) (damping p)) [0; 1; 2] = range n)
    as (n & Hn & Hf).
  { simpl.
    destruct (tap_included _ _ 2) eqn:T2.
    - rewrite (H21 eq_refl) in *. rewrite (H10 eq_refl). exists 3%nat. auto.
    - destruct (tap_included _ _ 1) eqn:T1.
      + rewrite (H10 eq_refl). exists 2%nat. auto.
      + destruct (tap_included _ _ 0); [exists 1%nat | exists 0%nat]; auto. }
  exists n. split; [exact Hn|]. split; [exact Hf|].
  rewrite for_in_included. change (range 3) with [0; 1; 2]. rewrite Hf.
  reflexivity.
Qed.

Lemma reverb_stage_all_excluded (p : params) (audio0 : AudioSegment) :
  (forall i, In i [0; 1; 2] ->
     tap_included (room_size p) (damping p) i = false) ->
  reverb_stage p audio0 = Ok audio0.
Proof.
  intros H. unfold reverb_stage.
  destruct (gtb (wet_level p) 0 && (delay p >? 0)); [|reflexivity].
  rewrite for_in_included. change (range 3) with [0; 1; 2]. simpl.
  rewrite !H by (simpl; auto). reflexivity.
Qed.

(** X2. A damping of 1, or a room size of at most 0.01 with a damping
    between 0 and 1, switches the reverb off: the stage hands the clip
    back unchanged whatever the wet level and the delay are. *)
Theorem reverb_stage_silent_room (p : params) (audio0 : AudioSegment) :
  (damping p == 1)%Q \/
  ((room_size p <= 0.01)%Q /\ (0 <= damping p)%Q /\ (damping p <= 1)%Q) ->
  reverb_stage p audio0 = Ok audio0.
Proof.
  intros H. apply reverb_stage_all_excluded. intros i Hi.
  destruct (decay_values (room_size p) (damping p)) as (E0 & E1 & E2).
  apply gtb_false_iff.
  destruct H as [H | (Hr & Hd0 & Hd1)].
  - simpl in Hi.
    destruct Hi as [<- | [<- | [<- | []]]];
      [rewrite E0 | rewrite E1 | rewrite E2]; rewrite H; lra.
  - assert (Hx : (0 <= 1 - damping p <= 1)%Q) by (split; lra).
    set (x := (1 - damping p)%Q) in *.
    assert (Hxx : (0 <= x * x <= 1)%Q) by (split; nra).
    assert (Hxxx : (0 <= x * (x * x) <= 1)%Q) by (split; nra).
    simpl in Hi.
    destruct Hi as [<- | [<- | [<- | []]]];
      [rewrite E0 | rewrite E1 | rewrite E2].
    + destruct (Qlt_le_dec (room_size p) 0); nra.
    + destruct (Qlt_le_dec (room_size p) 0); nra.
    + destruct (Qlt_le_dec (room_size p) 0); nra.
Qed.

Lemma tap_pass_ext (p p' : params) (src : AudioSegment) (xs : list Z)
  (acc : AudioSegment) :
  delay p = delay p' ->
  (forall i, In i xs ->
     tap_included (room_size p) (damping p) i =
     tap_included (room_size p') (damping p') i) ->
  for_in xs (tap_pass p src) acc = for_in xs (tap_pass p' src) acc.
Proof.
  intros Hd. revert acc. induction xs as [|i xs IH]; intros acc H; simpl;
    [reflexivity|].
  rewrite !tap_pass_unfold, <- Hd, <- (H i) by (left; reflexivity).
  destruct (tap_included _ _ i); simpl.
  - destruct (delayed_tap _ src i ≫= mix_tap acc); simpl; [|reflexivity].
    apply IH. intros j Hj. apply H. right. exact Hj.
  - apply IH. intros j Hj. apply H. right. exact Hj.
Qed.

(** X3. The wet level, the room size and the damping never scale a tap:
    the wet level only switches the reverb on, and room size and damping
    only decide which taps are added.  Two settings with the same delay,
    a positive wet level and the same taps give the same clip. *)
Theorem reverb_stage_only_gates (p p' : params) (audio0 : AudioSegment) :
  delay p = delay p' ->
  (0 < wet_level p)%Q -> (0 < wet_level p')%Q ->
  (forall i, In i [0; 1; 2] ->
     tap_included (room_size p) (damping p) i =
     tap_included (room_size p') (damping p') i) ->
  reverb_stage p audio0 = reverb_stage p' audio0.
Proof.
  intros Hd Hw Hw' Ht. unfold reverb_stage.
  apply gtb_true_iff in Hw, Hw'. rewrite Hw, Hw', <- Hd.
  destruct (delay p >? 0); [|reflexivity]. cbn [andb].
  change (range 3) with [0; 1; 2].
  rewrite !for_in_tap_pass, (tap_pass_ext p p' audio0 _ audio0 Hd Ht).
  reflexivity.
Qed.

End MoreStages.

Lemma int_lt (x : Q) (r : Z) : (x < inject_Z r)%Q -> 0 < r -> Py.int x < r.
Proof.
  unfold Qlt, Py.int. simpl. intros H Hr.
  destruct (Z.le_gt_cases 0 (Qnum x)) as [Hn | Hn].
  - rewrite Z.quot_div_nonneg by lia.
    apply Z.div_lt_upper_bound; lia.
  - assert (Z.quot (Qnum x) (Z.pos (Qden x)) <= 0); [|lia].
    apply Z.quot_le_upper_bound; lia.
Qed.

Lemma int_nonneg (x : Q) : (0 <= x)%Q -> 0 <= Py.int x.
Proof.
  unfold Qle, Py.int. simpl. intros H. apply Z.quot_pos; lia.
Qed.

Lemma int_nonpos (x : Q) : (x <= 0)%Q -> Py.int x <= 0.
Proof.
  unfold Qle, Py.int. simpl. intros H.
  apply Z.quot_le_upper_bound; lia.
Qed.

Section MoreEffects.
Context {L : AudioLib}.


(** X5. With every effect switched off ([slow_factor <= 0], [wet_level
    <= 0] or [delay <= 0], [dry_level >= 1]) the clip is still changed:
    it goes through the low-pass filter and the normalisation. *)
Theorem effects_neutral (p : params) (audio : AudioSegment) :
  (slow_factor p <= 0)%Q ->
  (wet_level p <= 0)%Q \/ delay p <= 0 ->
  (1 <= dry_level p)%Q ->
  effects p audio =
    (filtered ← low_pass_filter audio 8000; normalize filtered).
Proof.
  intros Hs Hw Hd. unfold effects, time_stretch, reverb_stage, gain_stage.
  apply gtb_false_iff in Hs. apply reverb_guard_false in Hw.
  apply ltb_false_iff in Hd. rewrite Hs, Hw, Hd. reflexivity.
Qed.

Lemma copy2_frame (src dst : string) (fs fs' : files) (r : result unit)
  (path : string) :
  copy2 src dst fs = (fs', r) -> path <> dst -> fs' !! path = fs !! path.
Proof.
  unfold copy2. intros H Hne.
  destruct (fs !! src); [|injection H as <- _; reflexivity].
  destruct (String.eqb src dst); injection H as <- _; [reflexivity|].
  apply lookup_insert_ne. congruence.
Qed.

(** X6. [slowedreverb] writes to the output path only: whatever the
    outcome, every other file is as it was. *)
Theorem slowedreverb_writes_output_only (input_file output_file : string)
  (p : params) (fs fs' : files) (r : result string) (path : string) :
  slowedreverb input_file output_file p fs = (fs', r) ->
  path <> output_file ->
  fs' !! path = fs !! path.
Proof.
  rewrite slowedreverb_unfold. intros H Hne.
  destruct (slowedreverb_try input_file output_file p fs) as [fs1 r1] eqn:Ht.
  pose proof (slowedreverb_try_frame _ _ _ _ _ _ _ Ht Hne) as H1.
  destruct r1 as [r1|e]; [injection H as <- _; exact H1|].
  destruct (copy2 input_file output_file fs1) as [fs2 r2] eqn:Hc.
  pose proof (copy2_frame _ _ _ _ _ _ Hc Hne) as H2.
  destruct r2 as [[]|e2]; injection H as <- _; congruence.
Qed.



Lemma msc_to_mp3_inf_unfold (wav_file : string) (fs : files) :
  msc_to_mp3_inf wav_file fs =
  match fs !! wav_file with
  | None => (fs, Ok wav_file)
  | Some data =>
      match decode "wav" data with
      | Raise _ => (fs, Ok wav_file)
      | Ok audio =>
          match encode audio "mp3" (Some "192k") with
          | Ok bytes =>
              (<[mp3_name wav_file := bytes]> fs, Ok (mp3_name wav_file))
          | Raise _ => (<[mp3_name wav_file := []]> fs, Ok wav_file)
          end
      end
  end.
Proof.
  unfold msc_to_mp3_inf, try_except. rewrite msc_to_mp3_inf_try_unfold.
  destruct (fs !! wav_file) as [data|]; [|reflexivity].
  destruct (decode "wav" data) as [a|e]; [|reflexivity].
  simpl. destruct (encode a "mp3" (Some "192k")); reflexivity.
Qed.

Lemma mp3_name_differs (wav_file : string) :
  contains ".wav" wav_file = true -> mp3_name wav_file <> wav_file.
Proof.
  intros H E. pose proof (contains_replace_from 0 wav_file) as H'.
  change (replace_from 0 ".wav" ".mp3" wav_file) with (mp3_name wav_file) in H'.
  rewrite E in H'. congruence.
Qed.

(** X9. [msc_to_mp3_inf] writes to the MP3 path only, and not at all
    when the WAV file is missing or does not decode.  For a path that
    contains [.wav] the MP3 path is another path, so the WAV file is
    kept as it was. *)
Theorem msc_to_mp3_inf_writes_mp3_only (wav_file : string) (fs fs' : files)
  (r : result string) :
  msc_to_mp3_inf wav_file fs = (fs', r) ->
  (forall path, path <> mp3_name wav_file -> fs' !! path = fs !! path) /\
  (fs !! wav_file = None -> fs' = fs) /\
  (forall data e,
     fs !! wav_file = Some data -> decode "wav" data = Raise e -> fs' = fs) /\
  (contains ".wav" wav_file = true ->
     mp3_name wav_file <> wav_file /\ fs' !! wav_file = fs !! wav_file).
Proof.
  rewrite msc_to_mp3_inf_unfold. intros H.
  assert (Hframe : forall path,
            path <> mp3_name wav_file -> fs' !! path = fs !! path).
  { intros path Hne.
    destruct (fs !! wav_file) as [data|]; [|injection H as <- _; reflexivity].
    destruct (decode "wav" data) as [a|e]; [|injection H as <- _; reflexivity].
    destruct (encode a "mp3" (Some "192k")); injection H as <- _;
      apply lookup_insert_ne; congruence. }
  split; [exact Hframe|]. split; [|split].
  - intros Hin. rewrite Hin in H. injection H as <- _. reflexivity.
  - intros data e Hin Hd. rewrite Hin, Hd in H. injection H as <- _.
    reflexivity.
  - intros Hc. pose proof (mp3_name_differs _ Hc) as Hne.
    split; [exact Hne|]. apply Hframe. congruence.
Qed.

(** X10. When the WAV file exists, the path that [msc_to_mp3_inf]
    returns names a file that exists afterwards.  When it does not
    exist, the input path is returned, no file is written, and the
    returned path names no file. *)
Theorem msc_to_mp3_inf_result_exists (wav_file : string) (fs : files) :
  (forall data,
     fs !! wav_file = Some data ->
     exists fs' path bytes,
       msc_to_mp3_inf wav_file fs = (fs', Ok path) /\
       fs' !! path = Some bytes) /\
  (fs !! wav_file = None ->
     msc_to_mp3_inf wav_file fs = (fs, Ok wav_file)).
Proof.
  rewrite msc_to_mp3_inf_unfold. split.
  - intros data Hin. rewrite Hin.
    destruct (decode "wav" data) as [a|e]; [|eauto].
    destruct (encode a "mp3" (Some "192k")) as [bytes|e].
    + eexists _, _, _. split; [reflexivity | apply lookup_insert_eq].
    + destruct (String.eqb_spec wav_file (mp3_name wav_file)) as [E|Hne].
      * eexists _, _, _. split; [reflexivity|].
        rewrite <- E. apply lookup_insert_eq.
      * eexists _, _, _. split; [reflexivity|].
        rewrite lookup_insert_ne by congruence. exact Hin.
  - intros Hin. rewrite Hin. reflexivity.
Qed.

End MoreEffects.

(** ** Properties of [main.py] *)

Lemma app_cons (c : ascii) (s t : string) :
  (String c s +:+ t)%string = String c (s +:+ t).
Proof. reflexivity. Qed.

Lemma app_nil (t : string) : (EmptyString +:+ t)%string = t.
Proof. reflexivity. Qed.

Lemma app_empty_r (s : string) : (s +:+ EmptyString)%string = s.
Proof.
  induction s as [|c s IH]; [reflexivity|]. rewrite app_cons, IH. reflexivity.
Qed.

Lemma str_take_drop (n : nat) (s : string) :
  (Os.str_take n s +:+ Os.str_drop n s)%string = s.
Proof.
  revert s. induction n as [|n IH]; intros [|c s]; simpl; try reflexivity.
  rewrite app_cons, IH. reflexivity.
Qed.

Lemma str_drop_get (n : nat) (s : string) (c : ascii) :
  String.get n s = Some c -> exists t, Os.str_drop n s = String c t.
Proof.
  revert s. induction n as [|n IH]; intros [|a s]; simpl; try discriminate.
  - intros [= <-]. eauto.
  - apply IH.
Qed.

Lemma rfind_from_get (c : ascii) (s : string) (i : Z) :
  0 <= i ->
  Os.rfind_from c s i = -1 \/
  (i <= Os.rfind_from c s i /\
   String.get (Z.to_nat (Os.rfind_from c s i - i)) s = Some c).
Proof.
  revert i. induction s as [|a s IH]; intros i Hi; simpl; [left; reflexivity|].
  destruct (IH (i + 1)) as [E | (Hle & Hget)]; [lia| |].
  - rewrite E. simpl.
    destruct (Ascii.eqb_spec a c) as [->|]; [|left; reflexivity].
    right. split; [lia|]. rewrite Z.sub_diag. reflexivity.
  - replace (Os.rfind_from c s (i + 1) >=? 0) with true
      by (symmetry; apply Z.geb_le; lia).
    right. split; [lia|].
    replace (Z.to_nat (Os.rfind_from c s (i + 1) - i))
      with (S (Z.to_nat (Os.rfind_from c s (i + 1) - (i + 1)))) by lia.
    exact Hget.
Qed.

Lemma splitext_scan_cases (p : string) (dotIndex filenameIndex n : nat) :
  Os.splitext_scan p dotIndex filenameIndex n = (p, EmptyString) \/
  Os.splitext_scan p dotIndex filenameIndex n =
    (Os.str_take dotIndex p, Os.str_drop dotIndex p).
Proof.
  revert filenameIndex. induction n as [|n IH]; intros f; simpl;
    [left; reflexivity|].
  destruct (Os.char_differs p f "."); [right; reflexivity | apply IH].
Qed.

(** [os.path.splitext] cuts the path in two, and the extension is empty
    or begins with a full stop. *)
Lemma splitext_parts (p : string) :
  (fst (Os.splitext p) +:+ snd (Os.splitext p))%string = p /\
  (snd (Os.splitext p) = EmptyString \/
   exists t, snd (Os.splitext p) = String "." t).
Proof.
  unfold Os.splitext.
  destruct (Os.rfind "." p >? Os.rfind "/" p) eqn:E.
  2:{ simpl. split; [apply app_empty_r | left; reflexivity]. }
  destruct (splitext_scan_cases p (Z.to_nat (Os.rfind "." p))
              (Z.to_nat (Os.rfind "/" p + 1))
              (Z.to_nat (Os.rfind "." p - (Os.rfind "/" p + 1)))) as [-> | ->].
  - simpl. split; [apply app_empty_r | left; reflexivity].
  - simpl. split; [apply str_take_drop|]. right.
    destruct (rfind_from_get "." p 0) as [Hn | (H0 & Hget)]; [lia| |].
    + exfalso. unfold Os.rfind in E. rewrite Hn in E.
      apply Z.gtb_lt in E.
      destruct (rfind_from_get "/" p 0) as [Hs | (Hs & _)]; lia.
    + rewrite Z.sub_0_r in Hget. exact (str_drop_get _ _ _ Hget).
Qed.

(** The name that [process_audio] gives the output is never the name of
    the input. *)
Lemma lofi_name_differs (audio_file : string) :
  (fst (Os.splitext audio_file) +:+ "_lofi.wav")%string <> audio_file.
Proof.
  destruct (splitext_parts audio_file) as [Hcat Hext].
  intros E. rewrite <- Hcat in E at 2.
  assert (Hinj : forall r a b : string, (r +:+ a)%string = (r +:+ b)%string -> a = b).
  { induction r as [|c r IH]; intros a b H; [exact H|].
    rewrite !app_cons in H. injection H as H. exact (IH _ _ H). }
  apply Hinj in E.
  destruct Hext as [E' | [t E']]; rewrite E' in E; discriminate.
Qed.

Lemma copy2_ok (src dst : string) (fs : files) (data : list byte) :
  fs !! src = Some data -> src <> dst ->
  copy2 src dst fs = (<[dst := data]> fs, Ok tt).
Proof.
  intros H Hne. unfold copy2. rewrite H.
  replace (String.eqb src dst) with false
    by (symmetry; apply String.eqb_neq; exact Hne).
  reflexivity.
Qed.

Section MoreConverter.
Context {L : AudioLib}.

Lemma process_audio_unfold (audio_file : string) (settings : params)
  (fs : files) :
  process_audio audio_file settings fs =
  let output_file := (fst (Os.splitext audio_file) +:+ "_lofi.wav")%string in
  match slowedreverb audio_file output_file settings fs with
  | (fs', Ok _) => (fs', Ok (Some output_file))
  | (fs', Raise _) => (fs', Ok None)
  end.
Proof.
  unfold process_audio, try_except, mbind, io_bind. simpl.
  destruct (slowedreverb _ _ _ fs) as [fs' [r|e]]; reflexivity.
Qed.



End MoreConverter.

Lemma remove_temp_spec (file : option string) (fs : files) :
  remove_temp file fs =
  (match file with
   | Some f => if String.eqb f EmptyString then fs else delete f fs
   | None => fs
   end, Ok tt).
Proof.
  destruct file as [f|]; [|reflexivity]. unfold remove_temp.
  destruct (String.eqb f EmptyString); [reflexivity|]. simpl.
  unfold mbind, io_bind, Os.path_exists.
  destruct (fs !! f) as [data|] eqn:E.
  - rewrite bool_decide_eq_true_2 by eauto.
    unfold try_except, Os.remove. rewrite E. reflexivity.
  - rewrite bool_decide_eq_false_2 by (intros [? ?]; discriminate).
    rewrite delete_id by exact E. reflexivity.
Qed.

Lemma remove_temps_spec (temps : list (option string)) (fs : files) :
  exists fs2,
    remove_temps temps fs = (fs2, Ok tt) /\
    (forall f, In (Some f) temps -> f <> EmptyString -> fs2 !! f = None) /\
    (forall path, ~ In (Some path) temps -> fs2 !! path = fs !! path) /\
    (forall path, fs2 !! path = None \/ fs2 !! path = fs !! path).
Proof.
  revert fs. induction temps as [|file temps IH]; intros fs.
  - exists fs. split; [reflexivity|]. split; [intros f []|]. split; auto.
  - simpl. unfold mbind, io_bind. rewrite remove_temp_spec.
    set (fs1 := match file with
                | Some f => if String.eqb f EmptyString then fs else delete f fs
                | None => fs
                end).
    assert (Hsub : forall path, fs1 !! path = None \/ fs1 !! path = fs !! path).
    { intros path. subst fs1. destruct file as [f|]; [|auto].
      destruct (String.eqb f EmptyString); [auto|].
      destruct (String.eqb_spec f path) as [->|Hne].
      - left. apply lookup_delete_eq.
      - right. apply lookup_delete_ne. exact Hne. }
    destruct (IH fs1) as (fs2 & Hrun & Hgone & Hkeep & Hsub2).
    exists fs2. split; [exact Hrun|]. split; [|split].
    + intros f [Hf | Hf] Hne.
      * destruct (Hsub2 f) as [H | H]; [exact H|]. rewrite H.
        subst fs1 file.
        replace (String.eqb f EmptyString) with false
          by (symmetry; apply String.eqb_neq; exact Hne).
        apply lookup_delete_eq.
      * exact (Hgone f Hf Hne).
    + intros path Hnot.
      rewrite Hkeep by (intros H; apply Hnot; right; exact H).
      subst fs1. destruct file as [f|]; [|reflexivity].
      destruct (String.eqb f EmptyString); [reflexivity|].
      apply lookup_delete_ne. intros ->. apply Hnot. left. reflexivity.
    + intros path. destruct (Hsub2 path) as [H | H]; [left; exact H|].
      rewrite H. apply Hsub.
Qed.


Section MoreValidate.
Variable extract_info : string -> extraction.
Variable format_1f : Os.pyval -> result string.

Lemma validate_info_cases (info_dict : gmap string Os.pyval) (v : verdict) :
  validate_info format_1f info_dict = Ok v ->
  (is_valid v = true /\ error_message v = None) \/
  (is_valid v = false /\ exists m, error_message v = Some m).
Proof.
  unfold validate_info.
  destruct (Os.truthy (Os.dict_get info_dict "is_live" Os.VNone));
    [intros [= <-]; right; simpl; eauto|].
  destruct (Os.truthy (Os.dict_get info_dict "private" Os.VNone));
    [intros [= <-]; right; simpl; eauto|].
  destruct (Os.gt_int _ _) as [[|]|e]; simpl; [| |discriminate].
  - destruct (Os.floordiv_int _ 60) as [m|e]; simpl; [|discriminate].
    destruct (format_1f m) as [t|e]; simpl; [|discriminate].
    intros [= <-]. right. simpl. eauto.
  - intros [= <-]. left. simpl. auto.
Qed.

(** X14. [validate_youtube_url] always returns a verdict: a valid one
    carries no message, and an invalid one always carries a message;
    whatever [extract_info] raises is turned into a verdict. *)
Theorem validate_verdict_message (youtube_link : string) :
  (is_valid (validate_youtube_url extract_info format_1f youtube_link) = true /\
   error_message (validate_youtube_url extract_info format_1f youtube_link) = None) \/
  (is_valid (validate_youtube_url extract_info format_1f youtube_link) = false /\
   exists m,
     error_message (validate_youtube_url extract_info format_1f youtube_link) =
       Some m).
Proof.
  unfold validate_youtube_url.
  destruct (extract_info youtube_link) as [info|msg|e].
  - destruct (validate_info format_1f info) as [v|e] eqn:E.
    + exact (validate_info_cases _ _ E).
    + right. simpl. eauto.
  - right. unfold extractor_verdict.
    destruct (contains "Video unavailable" msg); [simpl; eauto|].
    destruct (contains "age" (Os.lower msg)); simpl; eauto.
  - right. simpl. eauto.
Qed.

(** X15. A video that is neither live nor private and whose duration
    is a whole number of seconds is valid exactly when the duration is
    at most 600: 600 seconds pass, 601 do not.  A valid verdict returns
    the duration. *)
Theorem validate_duration_limit (youtube_link : string)
  (info_dict : gmap string Os.pyval) (seconds : Z) :
  extract_info youtube_link = Extracted info_dict ->
  Os.truthy (Os.dict_get info_dict "is_live" Os.VNone) = false ->
  Os.truthy (Os.dict_get info_dict "private" Os.VNone) = false ->
  info_dict !! "duration" = Some (Os.VInt seconds) ->
  (is_valid (validate_youtube_url extract_info format_1f youtube_link) = true <->
   seconds <= 600) /\
  (seconds <= 600 ->
     validate_youtube_url extract_info format_1f youtube_link =
       Verdict true None (Os.VInt seconds)) /\
  (600 < seconds ->
     forall text, format_1f (Os.VInt (seconds / 60)) = Ok text ->
     validate_youtube_url extract_info format_1f youtube_link =
       Verdict false
         (Some ("Video duration (" +:+ text +:+
                " minutes) exceeds 10-minute limit"))
         (Os.VInt seconds)).
Proof.
  intros He Hl Hp Hd.
  assert (Hdur : Os.dict_get info_dict "duration" (Os.VInt 0) = Os.VInt seconds)
    by (unfold Os.dict_get; rewrite Hd; reflexivity).
  assert (Hle : seconds <= 600 ->
            validate_youtube_url extract_info format_1f youtube_link =
              Verdict true None (Os.VInt seconds)).
  { intros H. unfold validate_youtube_url, validate_info.
    rewrite He, Hl, Hp, !Hdur. simpl.
    replace (seconds >? MAX_DURATION_SECONDS) with false; [reflexivity|].
    symmetry. rewrite Z.gtb_ltb. apply Z.ltb_ge. exact H. }
  assert (Hgt : 600 < seconds ->
            is_valid (validate_youtube_url extract_info format_1f youtube_link) = false /\
            forall text, format_1f (Os.VInt (seconds / 60)) = Ok text ->
            validate_youtube_url extract_info format_1f youtube_link =
              Verdict false
                (Some ("Video duration (" +:+ text +:+
                       " minutes) exceeds 10-minute limit"))
                (Os.VInt seconds)).
  { intros H. unfold validate_youtube_url, validate_info.
    rewrite He, Hl, Hp, !Hdur. simpl.
    replace (seconds >? MAX_DURATION_SECONDS) with true
      by (symmetry; apply Z.gtb_lt; exact H).
    split.
    - destruct (format_1f (Os.VInt (seconds / 60))); reflexivity.
    - intros text ->. reflexivity. }
  split; [split|split].
  - intros Hv. destruct (Z.le_gt_cases seconds 600) as [H|H]; [exact H|].
    destruct (Hgt H) as [Hf _]. congruence.
  - intros H. rewrite (Hle H). reflexivity.
  - exact Hle.
  - intros H. exact (proj2 (Hgt H)).
Qed.

(** X16. A dictionary without a [duration] key counts as a duration of
    0: the video is valid when it is neither live nor private. *)
Theorem validate_missing_duration (youtube_link : string)
  (info_dict : gmap string Os.pyval) :
  extract_info youtube_link = Extracted info_dict ->
  Os.truthy (Os.dict_get info_dict "is_live" Os.VNone) = false ->
  Os.truthy (Os.dict_get info_dict "private" Os.VNone) = false ->
  info_dict !! "duration" = None ->
  validate_youtube_url extract_info format_1f youtube_link =
    Verdict true None (Os.VInt 0).
Proof.
  intros He Hl Hp Hd. unfold validate_youtube_url, validate_info.
  rewrite He, Hl, Hp. unfold Os.dict_get. rewrite Hd. reflexivity.
Qed.

(** X17. The checks run in a fixed order.  A live stream is rejected as
    a live stream whatever else the dictionary holds; a private video
    that is not live is rejected as private; only then is the duration
    looked at, and a duration that is present but is not a number
    ([None] or a string) makes the validation fail. *)
Theorem validate_check_order (youtube_link : string)
  (info_dict : gmap string Os.pyval) :
  extract_info youtube_link = Extracted info_dict ->
  (Os.truthy (Os.dict_get info_dict "is_live" Os.VNone) = true ->
     validate_youtube_url extract_info format_1f youtube_link =
       Verdict false (Some "Live streams are not supported") Os.VNone) /\
  (Os.truthy (Os.dict_get info_dict "is_live" Os.VNone) = false ->
   Os.truthy (Os.dict_get info_dict "private" Os.VNone) = true ->
     validate_youtube_url extract_info format_1f youtube_link =
       Verdict false (Some "Private videos are not accessible") Os.VNone) /\
  (Os.truthy (Os.dict_get info_dict "is_live" Os.VNone) = false ->
   Os.truthy (Os.dict_get info_dict "private" Os.VNone) = false ->
   (info_dict !! "duration" = Some Os.VNone \/
    exists s, info_dict !! "duration" = Some (Os.VStr s)) ->
     validate_youtube_url extract_info format_1f youtube_link = failed_verdict).
Proof.
  intros He. unfold validate_youtube_url, validate_info. rewrite He.
  split; [|split].
  - intros ->. reflexivity.
  - intros -> ->. reflexivity.
  - intros -> -> [Hd | [s Hd]]; unfold Os.dict_get; rewrite Hd; reflexivity.
Qed.

Lemma str_take_length (n : nat) (s : string) :
  (String.length (Os.str_take n s) <= n)%nat.
Proof.
  revert s. induction n as [|n IH]; intros [|c s]; simpl; try lia.
  specialize (IH s). lia.
Qed.

Lemma str_take_all (n : nat) (s : string) :
  (String.length s <= n)%nat -> Os.str_take n s = s.
Proof.
  revert s. induction n as [|n IH]; intros [|c s]; simpl; try reflexivity.
  - lia.
  - intros H. rewrite IH by lia. reflexivity.
Qed.

Lemma app_length (s t : string) :
  String.length (s +:+ t) = (String.length s + String.length t)%nat.
Proof.
  induction s as [|c s IH]; [reflexivity|].
  rewrite app_cons. simpl. rewrite IH. reflexivity.
Qed.

(** X18. An [ExtractorError] is classified by its text.  A message
    with [Video unavailable] is reported as unavailable; otherwise a
    message that has [age] anywhere in it, in any letter case, also
    inside a longer word, is reported as age-restricted; any other
    message is reported after [YouTube error: ], cut to its first 100
    characters, so that the report has at most 115 characters. *)
Theorem validate_extractor_error (youtube_link error_msg : string) :
  extract_info youtube_link = ExtractorError error_msg ->
  (contains "Video unavailable" error_msg = true ->
     validate_youtube_url extract_info format_1f youtube_link =
       Verdict false
         (Some "Video is not available (may be private or region-locked)")
         Os.VNone) /\
  (contains "Video unavailable" error_msg = false ->
   contains "age" (Os.lower error_msg) = true ->
     validate_youtube_url extract_info format_1f youtube_link =
       Verdict false (Some "Age-restricted content cannot be downloaded")
               Os.VNone) /\
  (contains "Video unavailable" error_msg = false ->
   contains "age" (Os.lower error_msg) = false ->
     exists report,
       validate_youtube_url extract_info format_1f youtube_link =
         Verdict false (Some report) Os.VNone /\
       report = ("YouTube error: " +:+ Os.str_take 100 error_msg)%string /\
       (String.length report <= 115)%nat /\
       ((String.length error_msg <= 100)%nat ->
          report = ("YouTube error: " +:+ error_msg)%string)).
Proof.
  intros He. unfold validate_youtube_url, extractor_verdict. rewrite He.
  split; [|split].
  - intros ->. reflexivity.
  - intros -> ->. reflexivity.
  - intros -> ->. eexists. split; [reflexivity|]. split; [reflexivity|].
    split.
    + rewrite app_length. pose proof (str_take_length 100 error_msg).
      change (String.length "YouTube error: ") with 15%nat. lia.
    + intros H. rewrite str_take_all by exact H. reflexivity.
Qed.

End MoreValidate.

(** ** The further properties on concrete clips and files *)

(** The default settings are in the range of X1. *)
Lemma included_taps_are_first_witness :
  exists n : nat,
    (n <= 3)%nat /\
    List.filter (tap_included 0.75 0.5) [0; 1; 2] = range n.
Proof.
  destruct (included_taps_are_first (L := lib) default_params
              (@Locals lib click click)) as (n & Hn & Hf & _);
    [discriminate | discriminate | discriminate |].
  exists n. split; [exact Hn | exact Hf].
Defined.

(** The default settings with the damping turned up to 1. *)
Lemma reverb_stage_silent_room_witness :
  reverb_stage (Params 0.75 1 0.08 0.2 2 0.08) click = Ok click.
Proof.
  apply (reverb_stage_silent_room (L := lib)). left. reflexivity.
Defined.

(** Two settings that differ in wet level, room size and damping. *)
Lemma reverb_stage_only_gates_witness :
  reverb_stage default_params click = reverb_stage Samples.roomy_params click.
Proof.
  apply (reverb_stage_only_gates (L := lib)); try reflexivity.
  intros i [<- | [<- | [<- | []]]]; reflexivity.
Defined.


(** Every effect off. *)
Lemma effects_neutral_witness :
  effects (Params 0.75 0.5 0 1 2 0) click =
    (filtered ← low_pass_filter click 8000; normalize filtered).
Proof.
  apply (effects_neutral (L := lib)); [discriminate | | discriminate].
  left. discriminate.
Defined.

(** The fallback copy leaves the input file alone. *)
Lemma slowedreverb_writes_output_only_witness :
  fst (slowedreverb "in.wav" "out.wav" default_params junk_disk) !! "in.wav" =
    Some junk.
Proof.
  destruct (slowedreverb "in.wav" "out.wav" default_params junk_disk)
    as [fs' r] eqn:H.
  simpl.
  rewrite (slowedreverb_writes_output_only (L := lib) _ _ _ _ _ _ "in.wav" H)
    by discriminate.
  reflexivity.
Defined.


(** The WAV file survives the conversion to MP3. *)
Lemma msc_to_mp3_inf_writes_mp3_only_witness :
  mp3_name "in.wav" = "in.mp3" /\
  fst (msc_to_mp3_inf "in.wav" disk) !! "in.wav" = Some click_wav.
Proof.
  destruct (msc_to_mp3_inf "in.wav" disk) as [fs' r] eqn:H.
  destruct (msc_to_mp3_inf_writes_mp3_only (L := lib) _ _ _ _ H)
    as (_ & _ & _ & Hkeep).
  destruct (Hkeep eq_refl) as [_ Hk].
  split; [reflexivity | simpl; rewrite Hk; reflexivity].
Defined.



(** A video of exactly ten minutes. *)
Lemma validate_duration_limit_witness :
  validate_youtube_url Samples.extract Samples.format "short" =
    Verdict true None (Os.VInt 600).
Proof.
  destruct (validate_duration_limit Samples.extract Samples.format "short"
              (Samples.video 600) 600 eq_refl eq_refl eq_refl eq_refl)
    as (_ & Hle & _).
  apply Hle. lia.
Defined.

Lemma validate_missing_duration_witness :
  validate_youtube_url Samples.extract Samples.format "bare" =
    Verdict true None (Os.VInt 0).
Proof.
  exact (validate_missing_duration Samples.extract Samples.format "bare"
           {[ "title" := Os.VStr "song" ]} eq_refl eq_refl eq_refl eq_refl).
Defined.

(** A live stream of two hours is reported as a live stream. *)
Lemma validate_check_order_witness :
  validate_youtube_url Samples.extract Samples.format "live" =
    Verdict false (Some "Live streams are not supported") Os.VNone.
Proof.
  destruct (validate_check_order Samples.extract Samples.format "live"
              (<["is_live" := Os.VBool true]> (Samples.video 7200)) eq_refl)
    as (Hlive & _).
  apply Hlive. reflexivity.
Defined.

(** An error about a web page is reported as an age restriction. *)
Lemma validate_extractor_error_witness :
  validate_youtube_url Samples.extract Samples.format "gone" =
    Verdict false (Some "Age-restricted content cannot be downloaded")
            Os.VNone.
Proof.
  destruct (validate_extractor_error Samples.extract Samples.format "gone"
              "Unable to download webpage" eq_refl) as (_ & Hage & _).
  apply Hage; reflexivity.
Defined.

(** ** The download and the flow of [main] *)

Section MoreFlow.
Context {L : AudioLib}.
Variable extract_info : string -> extraction.
Variable format_1f : Os.pyval -> result string.
Variable unique_id : string.
Variable ydl_download : string -> string -> io (gmap string Os.pyval).
Variable prepare_filename : gmap string Os.pyval -> string -> result string.

Abbreviation output_template :=
  (Os2.join TEMP_DIR (unique_id +:+ ".%(ext)s")).

Lemma msc_to_mp3_inf_path_cases (wav_file : string) (fs : files) :
  exists fs' path,
    msc_to_mp3_inf wav_file fs = (fs', Ok path) /\
    (path = mp3_name wav_file \/ path = wav_file) /\
    (forall p, p <> mp3_name wav_file -> fs' !! p = fs !! p) /\
    (forall data, fs !! wav_file = Some data -> is_Some (fs' !! path)) /\
    (fs !! wav_file = None -> fs' = fs /\ path = wav_file).
Proof.
  rewrite msc_to_mp3_inf_unfold.
  destruct (fs !! wav_file) as [data|] eqn:Hin.
  2:{ exists fs, wav_file. repeat split; auto. discriminate. }
  destruct (decode "wav" data) as [a|e].
  2:{ exists fs, wav_file. repeat split; auto; try discriminate;
        try (intros; rewrite Hin; eauto). }
  destruct (encode a "mp3" (Some "192k")) as [bytes|e].
  - eexists _, _. split; [reflexivity|]. split; [left; reflexivity|].
    split; [intros p Hp; apply lookup_insert_ne; congruence|].
    split; [|discriminate].
    intros d _. rewrite lookup_insert_eq. eauto.
  - eexists _, _. split; [reflexivity|]. split; [right; reflexivity|].
    split; [intros p Hp; apply lookup_insert_ne; congruence|].
    split; [|discriminate].
    intros d _.
    destruct (String.eqb_spec (mp3_name wav_file) wav_file) as [E|Hne].
    + rewrite E, lookup_insert_eq. eauto.
    + rewrite lookup_insert_ne by exact Hne. rewrite Hin. eauto.
Qed.

Lemma download_unfold (youtube_link : string) (fs : files) :
  download_youtube_audio extract_info format_1f unique_id
    ydl_download prepare_filename youtube_link fs =
  if negb (is_valid (validate_youtube_url extract_info format_1f youtube_link))
  then (fs, Ok None)
  else
    match ydl_download youtube_link output_template fs with
    | (fs1, Raise _) => (fs1, Ok None)
    | (fs1, Ok info_dict) =>
        match prepare_filename info_dict output_template with
        | Raise _ => (fs1, Ok None)
        | Ok prepared =>
            match msc_to_mp3_inf (wav_name prepared) fs1 with
            | (fs2, Ok mp3) =>
                (fs2, Ok (Some
                   (Download (wav_name prepared) mp3
                      (Os.dict_get info_dict "title" (Os.VStr "Unknown"))
                      (metadata_of info_dict
                         (duration (validate_youtube_url extract_info format_1f
                                      youtube_link))))))
            | (fs2, Raise _) => (fs2, Ok None)
            end
        end
    end.
Proof.
  unfold download_youtube_audio.
  destruct (negb (is_valid (validate_youtube_url extract_info format_1f
                              youtube_link))); [reflexivity|].
  unfold try_except, download_try, mbind, io_bind, lift.
  destruct (ydl_download youtube_link output_template fs) as [fs1 [info|e]];
    [|reflexivity].
  destruct (prepare_filename info output_template) as [prepared|e];
    [|reflexivity].
  destruct (msc_to_mp3_inf (wav_name prepared) fs1) as [fs2 [mp3|e]];
    reflexivity.
Qed.

(** X19. [download_youtube_audio] never raises.  For a link that does
    not pass the validation it returns [None] without starting a
    download: the files are as they were.  A download that raises, or
    whose file name cannot be prepared, gives [None] as well. *)
Theorem download_never_raises (youtube_link : string) (fs : files) :
  (exists fs' r, download_youtube_audio extract_info format_1f unique_id
    ydl_download prepare_filename youtube_link fs = (fs', Ok r)) /\
  (is_valid (validate_youtube_url extract_info format_1f youtube_link) = false ->
     download_youtube_audio extract_info format_1f unique_id
    ydl_download prepare_filename youtube_link fs = (fs, Ok None)) /\
  (forall fs1 e,
     is_valid (validate_youtube_url extract_info format_1f youtube_link) = true ->
     ydl_download youtube_link output_template fs = (fs1, Raise e) ->
     download_youtube_audio extract_info format_1f unique_id
    ydl_download prepare_filename youtube_link fs = (fs1, Ok None)) /\
  (forall fs1 info_dict e,
     is_valid (validate_youtube_url extract_info format_1f youtube_link) = true ->
     ydl_download youtube_link output_template fs = (fs1, Ok info_dict) ->
     prepare_filename info_dict output_template = Raise e ->
     download_youtube_audio extract_info format_1f unique_id
    ydl_download prepare_filename youtube_link fs = (fs1, Ok None)).
Proof.
  rewrite download_unfold. split; [|split; [|split]].
  - destruct (negb _); [eauto|].
    destruct (ydl_download _ _ fs) as [fs1 [info|e]]; [|eauto].
    destruct (prepare_filename info _) as [prepared|e]; [|eauto].
    destruct (msc_to_mp3_inf (wav_name prepared) fs1) as [fs2 [mp3|e]]; eauto.
  - intros ->. reflexivity.
  - intros fs1 e -> ->. reflexivity.
  - intros fs1 info e -> -> ->. reflexivity.
Qed.

(** X20. What a download returns: the link passed the validation; the
    audio file is the prepared file name with [.webm] and [.m4a]
    replaced by [.wav]; the MP3 file is what [msc_to_mp3_inf] returns
    for it, that is its MP3 name or, when the conversion failed, the
    audio file itself; the song name is the title of the video, or
    [Unknown] when the dictionary has no title. *)
Theorem download_returns_files (youtube_link : string) (fs fs' : files) (d : download) :
  download_youtube_audio extract_info format_1f unique_id
    ydl_download prepare_filename youtube_link fs = (fs', Ok (Some d)) ->
  is_valid (validate_youtube_url extract_info format_1f youtube_link) = true /\
  exists fs1 info_dict prepared,
    ydl_download youtube_link output_template fs = (fs1, Ok info_dict) /\
    prepare_filename info_dict output_template = Ok prepared /\
    audio_file d = replace (replace prepared ".webm" ".wav") ".m4a" ".wav" /\
    msc_to_mp3_inf (audio_file d) fs1 = (fs', Ok (mp3_file d)) /\
    (mp3_file d = mp3_name (audio_file d) \/ mp3_file d = audio_file d) /\
    song_name d =
      match info_dict !! "title" with
      | Some title => title
      | None => Os.VStr "Unknown"
      end /\
    metadata d =
      metadata_of info_dict
        (duration (validate_youtube_url extract_info format_1f youtube_link)).
Proof.
  rewrite download_unfold.
  destruct (is_valid (validate_youtube_url extract_info format_1f youtube_link));
    [|discriminate].
  simpl negb. cbv iota.
  destruct (ydl_download _ _ fs) as [fs1 [info|e]] eqn:Hd; [|discriminate].
  destruct (prepare_filename info _) as [prepared|e] eqn:Hp; [|discriminate].
  destruct (msc_to_mp3_inf (wav_name prepared) fs1) as [fs2 [mp3|e]] eqn:Hm;
    [|discriminate].
  intros [= <- <-]. split; [reflexivity|].
  exists fs1, info, prepared. simpl.
  repeat split; try reflexivity; try assumption.
  destruct (msc_to_mp3_inf_path_cases (wav_name prepared) fs1)
    as (fs3 & path & Hrun & Hpath & _).
  rewrite Hm in Hrun. injection Hrun as _ <-. exact Hpath.
Qed.

Lemma metadata_lookup (info_dict : gmap string Os.pyval) (duration : Os.pyval) :
  let m := metadata_of info_dict duration in
  m !! "title" = Some (Os.dict_get info_dict "title" (Os.VStr "Unknown")) /\
  m !! "artist" =
    Some (Os.dict_get info_dict "artist"
            (Os.dict_get info_dict "uploader" (Os.VStr "Unknown"))) /\
  m !! "duration" = Some duration /\
  m !! "thumbnail" = Some (Os.dict_get info_dict "thumbnail" Os.VNone) /\
  m !! "view_count" = Some (Os.dict_get info_dict "view_count" (Os.VInt 0)) /\
  dom m = {[ "title"; "artist"; "duration"; "thumbnail"; "view_count" ]}.
Proof.
  unfold metadata_of. cbv zeta.
  split; [apply lookup_insert_eq|].
  split; [rewrite lookup_insert_ne by discriminate; apply lookup_insert_eq|].
  split; [rewrite !lookup_insert_ne by discriminate; apply lookup_insert_eq|].
  split; [rewrite !lookup_insert_ne by discriminate; apply lookup_insert_eq|].
  split; [rewrite !lookup_insert_ne by discriminate; apply lookup_insert_eq|].
  rewrite !dom_insert_L, dom_empty_L. set_solver.
Qed.

(** X21. The metadata of a download has exactly the five keys [title],
    [artist], [duration], [thumbnail] and [view_count].  The duration is
    the one the validation returned.  The artist is the [artist] entry
    of the video whenever the key is there, also when its value is
    [None]; the uploader stands in only when the key is missing, and
    [Unknown] when both are. *)
Theorem download_metadata (youtube_link : string) (fs fs' : files) (d : download) :
  download_youtube_audio extract_info format_1f unique_id
    ydl_download prepare_filename youtube_link fs = (fs', Ok (Some d)) ->
  exists fs1 info_dict,
    ydl_download youtube_link output_template fs = (fs1, Ok info_dict) /\
    dom (metadata d) =
      {[ "title"; "artist"; "duration"; "thumbnail"; "view_count" ]} /\
    metadata d !! "duration" =
      Some (duration (validate_youtube_url extract_info format_1f
                        youtube_link)) /\
    metadata d !! "title" = Some (song_name d) /\
    metadata d !! "artist" =
      Some (match info_dict !! "artist" with
            | Some artist => artist
            | None =>
                match info_dict !! "uploader" with
                | Some uploader => uploader
                | None => Os.VStr "Unknown"
                end
            end) /\
    metadata d !! "view_count" =
      Some (match info_dict !! "view_count" with
            | Some n => n
            | None => Os.VInt 0
            end).
Proof.
  rewrite download_unfold.
  destruct (is_valid (validate_youtube_url extract_info format_1f youtube_link));
    [|discriminate].
  simpl negb. cbv iota.
  destruct (ydl_download _ _ fs) as [fs1 [info|e]] eqn:Hd; [|discriminate].
  destruct (prepare_filename info _) as [prepared|e] eqn:Hp; [|discriminate].
  destruct (msc_to_mp3_inf (wav_name prepared) fs1) as [fs2 [mp3|e]] eqn:Hm;
    [|discriminate].
  intros [= <- <-]. exists fs1, info. simpl.
  destruct (metadata_lookup info
              (duration (validate_youtube_url extract_info format_1f
                           youtube_link)))
    as (Ht & Ha & Hdu & _ & Hv & Hdom).
  split; [reflexivity|]. split; [exact Hdom|]. split; [exact Hdu|].
  split; [exact Ht|]. split; [exact Ha | exact Hv].
Qed.

Lemma slowedreverb_with_input (input_file output_file : string) (p : params)
  (fs : files) (data : list byte) :
  fs !! input_file = Some data -> input_file <> output_file ->
  exists fs' bytes,
    slowedreverb input_file output_file p fs = (fs', Ok output_file) /\
    fs' !! output_file = Some bytes /\
    (forall path, path <> output_file -> fs' !! path = fs !! path).
Proof.
  intros Hin Hne. rewrite slowedreverb_unfold.
  destruct (slowedreverb_try input_file output_file p fs) as [fs1 r1] eqn:Ht.
  assert (Hframe : forall path,
            path <> output_file -> fs1 !! path = fs !! path).
  { intros path Hp. exact (slowedreverb_try_frame _ _ _ _ _ _ _ Ht Hp). }
  destruct r1 as [r1|e].
  - rewrite slowedreverb_try_unfold, Hin in Ht.
    destruct (decode "wav" data) as [a|e]; [|discriminate].
    destruct (effects p a) as [a'|e]; [|discriminate].
    destruct (encode a' "wav" None) as [bytes|e]; [|discriminate].
    injection Ht as <- <-. eexists _, bytes.
    split; [reflexivity|]. split; [apply lookup_insert_eq|].
    intros path Hp. apply lookup_insert_ne. congruence.
  - rewrite (copy2_ok _ _ _ data);
      [|rewrite Hframe by exact Hne; exact Hin | exact Hne].
    eexists _, data. split; [reflexivity|].
    split; [apply lookup_insert_eq|].
    intros path Hp. rewrite lookup_insert_ne by congruence.
    apply Hframe. exact Hp.
Qed.

Lemma lofi_name_nonempty (audio : string) :
  (fst (Os.splitext audio) +:+ "_lofi.wav")%string <> EmptyString.
Proof.
  destruct (fst (Os.splitext audio)); discriminate.
Qed.

Lemma mp3_name_nonempty (s : string) :
  s <> EmptyString -> mp3_name s <> EmptyString.
Proof.
  destruct s as [|c s]; [congruence|]. intros _.
  destruct (is_prefix ".wav" (String c s)) eqn:E.
  - apply is_prefix_wav_inv in E as [t ->]. rewrite replace_wav_match.
    discriminate.
  - rewrite (replace_wav_step _ _ E). discriminate.
Qed.

Lemma main_flow_unfold (youtube_link : string) (settings : params)
  (fs : files) :
  main_flow extract_info format_1f unique_id ydl_download
    prepare_filename youtube_link settings fs =
  match download_youtube_audio extract_info format_1f unique_id
    ydl_download prepare_filename youtube_link fs with
  | (fs1, Ok (Some d)) =>
      match show_metrics (metadata d), fs1 !! mp3_file d with
      | Ok _, Some _ =>
          match process_audio (audio_file d) settings fs1 with
          | (fs2, Ok (Some output_file)) =>
              if negb (String.eqb output_file EmptyString) then
                match msc_to_mp3_inf output_file fs2 with
                | (fs3, Ok lofi_mp3) =>
                    match fs3 !! lofi_mp3 with
                    | Some data =>
                        match remove_temps
                                [Some (audio_file d); Some output_file;
                                 Some (mp3_file d); Some lofi_mp3] fs3 with
                        | (fs4, Ok _) => (fs4, Ok (Some (song_name d, data)))
                        | (fs4, Raise _) => (fs4, Ok None)
                        end
                    | None => (fs3, Ok None)
                    end
                | (fs3, Raise _) => (fs3, Ok None)
                end
              else (fs2, Ok None)
          | (fs2, _) => (fs2, Ok None)
          end
      | _, _ => (fs1, Ok None)
      end
  | (fs1, _) => (fs1, Ok None)
  end.
Proof.
  unfold main_flow, try_except, mbind, io_bind, lift.
  destruct (download_youtube_audio extract_info format_1f unique_id
    ydl_download prepare_filename youtube_link fs) as [fs1 [[d|]|e]];
    try reflexivity.
  destruct (show_metrics (metadata d)) as [[]|e]; [|reflexivity].
  unfold Os2.read_file at 1.
  destruct (fs1 !! mp3_file d) as [preview|]; [|reflexivity].
  destruct (process_audio (audio_file d) settings fs1) as [fs2 [[o|]|e]];
    try reflexivity.
  destruct (negb (String.eqb o EmptyString)); [|reflexivity].
  destruct (msc_to_mp3_inf o fs2) as [fs3 [lofi|e]]; [|reflexivity].
  unfold Os2.read_file.
  destruct (fs3 !! lofi) as [data|] eqn:E; [|reflexivity].
  cbv beta iota. rewrite E.
  unfold temp_files_manager, Os.try_finally, mret, io_ret.
  destruct (remove_temps
              [Some (audio_file d); Some o; Some (mp3_file d); Some lofi] fs3)
    as [fs4 [[]|e]]; reflexivity.
Qed.

(** The files of a download: the MP3 file is the MP3 name of the audio
    file or the audio file itself, and it exists when the audio file
    does. *)
Lemma download_files (youtube_link : string) (fs fs1 : files) (d : download) :
  download_youtube_audio extract_info format_1f unique_id
    ydl_download prepare_filename youtube_link fs = (fs1, Ok (Some d)) ->
  (mp3_file d = mp3_name (audio_file d) \/ mp3_file d = audio_file d) /\
  (is_Some (fs1 !! audio_file d) -> is_Some (fs1 !! mp3_file d)).
Proof.
  rewrite download_unfold.
  destruct (negb _); [discriminate|].
  destruct (ydl_download _ _ fs) as [fs0 [info|e]]; [|discriminate].
  destruct (prepare_filename info _) as [prepared|e]; [|discriminate].
  destruct (msc_to_mp3_inf_path_cases (wav_name prepared) fs0)
    as (fsm & path & Hrun & Hpath & _ & Hex & Hmiss).
  rewrite Hrun. intros [= <- <-]. simpl. split; [exact Hpath|].
  intros Hsome.
  destruct (fs0 !! wav_name prepared) as [data|] eqn:E.
  - exact (Hex data eq_refl).
  - destruct (Hmiss eq_refl) as [-> _]. rewrite E in Hsome.
    destruct Hsome as [? ?]. discriminate.
Qed.


(** X23. The flow of [main] never raises.  It offers nothing when the
    download returns nothing, when the metadata cannot be shown, or
    when the audio file that the download names does not exist; in
    these cases no file is removed, so whatever the download wrote
    stays behind. *)
Theorem main_flow_offers_nothing (youtube_link : string) (settings : params)
  (fs : files) :
  (exists fs' r, main_flow extract_info format_1f unique_id ydl_download
    prepare_filename youtube_link settings fs = (fs', Ok r)) /\
  (forall fs1,
     download_youtube_audio extract_info format_1f unique_id
    ydl_download prepare_filename youtube_link fs = (fs1, Ok None) ->
     main_flow extract_info format_1f unique_id ydl_download
    prepare_filename youtube_link settings fs = (fs1, Ok None)) /\
  (forall fs1 d e,
     download_youtube_audio extract_info format_1f unique_id
    ydl_download prepare_filename youtube_link fs = (fs1, Ok (Some d)) ->
     show_metrics (metadata d) = Raise e ->
     main_flow extract_info format_1f unique_id ydl_download
    prepare_filename youtube_link settings fs = (fs1, Ok None)) /\
  (forall fs1 d,
     download_youtube_audio extract_info format_1f unique_id
    ydl_download prepare_filename youtube_link fs = (fs1, Ok (Some d)) ->
     fs1 !! audio_file d = None ->
     main_flow extract_info format_1f unique_id ydl_download
    prepare_filename youtube_link settings fs = (fs1, Ok None)).
Proof.
  rewrite main_flow_unfold. split; [|split; [|split]].
  - destruct (download_youtube_audio extract_info format_1f unique_id
    ydl_download prepare_filename youtube_link fs) as [fs1 [[d|]|e]]; eauto.
    destruct (show_metrics (metadata d)) as [[]|e]; eauto.
    destruct (fs1 !! mp3_file d); eauto.
    destruct (process_audio (audio_file d) settings fs1) as [fs2 [[o|]|e]];
      eauto.
    destruct (negb (String.eqb o EmptyString)); eauto.
    destruct (msc_to_mp3_inf o fs2) as [fs3 [lofi|e]]; eauto.
    destruct (fs3 !! lofi); eauto.
    destruct (remove_temps _ fs3) as [fs4 [[]|e]]; eauto.
  - intros fs1 ->. reflexivity.
  - intros fs1 d e -> ->. reflexivity.
  - intros fs1 d -> Hin.
    destruct (show_metrics (metadata d)) as [[]|e]; [|reflexivity].
    destruct (fs1 !! mp3_file d); [|reflexivity].
    rewrite process_audio_unfold. cbv zeta.
    rewrite slowedreverb_unfold, slowedreverb_try_unfold, Hin.
    unfold copy2. rewrite Hin. reflexivity.
Qed.

End MoreFlow.

(** X24. The history shows at most ten lines, one for each of the ten
    most recent conversions, with the newest first: the first line is
    for the song added last, numbered 1, with its name cut to 40
    characters and followed by three full stops. *)
Theorem recent_lines_newest_first (processed_files : list string)
  (song : string) :
  length (recent_lines processed_files) =
    Nat.min 10 (length processed_files) /\
  recent_lines (processed_files ++ [song]) !! 0%nat =
    Some ("1. " +:+ Os.str_take 40 song +:+ "...")%string /\
  (forall i line,
     recent_lines processed_files !! i = Some line ->
     exists file,
       processed_files !! (length processed_files - 1 - i)%nat = Some file /\
       (i < 10)%nat /\
       line = (pretty.pretty (S i) +:+ ". " +:+ Os.str_take 40 file +:+
               "...")%string).
Proof.
  unfold recent_lines. split; [|split].
  - rewrite length_imap, length_reverse, length_drop. lia.
  - rewrite length_app. simpl.
    rewrite drop_app_le by lia. rewrite reverse_app. reflexivity.
  - intros i line H.
    rewrite list_lookup_imap in H.
    destruct (reverse (drop (length processed_files - 10) processed_files) !! i)
      as [file|] eqn:E; [|discriminate].
    injection H as <-.
    assert (Hlt : (i < length (drop (length processed_files - 10)
                                    processed_files))%nat).
    { rewrite <- length_reverse. apply lookup_lt_Some with (x := file).
      exact E. }
    rewrite reverse_lookup in E by exact Hlt.
    rewrite length_drop in Hlt.
    rewrite length_drop, lookup_drop in E.
    exists file. split; [|split; [lia | reflexivity]].
    rewrite <- E. f_equal. lia.
Qed.

(** ** The flow on a sample download *)

(** A valid link whose download succeeds. *)
Lemma download_returns_files_witness :
  exists fs' d,
    download_youtube_audio (L := lib) Samples.extract Samples.format "id"
      Samples.fetch Samples.prepared "short" ∅ = (fs', Ok (Some d)) /\
    audio_file d = "uploaded_files/id.wav" /\
    (mp3_file d = mp3_name (audio_file d) \/ mp3_file d = audio_file d) /\
    song_name d = Os.VStr "song".
Proof.
  destruct (download_youtube_audio (L := lib) Samples.extract Samples.format
              "id" Samples.fetch Samples.prepared "short" ∅)
    as [fs' [[d|]|e]] eqn:H; try (vm_compute in H; discriminate).
  destruct (download_returns_files (L := lib) _ _ _ _ _ _ _ _ _ H)
    as (_ & fs1 & info & prep & Hf & Hp & Ha & _ & Hm & Hs & _).
  injection Hf as <- <-. injection Hp as <-.
  exists fs', d. split; [reflexivity|]. split; [exact Ha|].
  split; [exact Hm | exact Hs].
Defined.

Lemma download_metadata_witness :
  exists fs' d,
    download_youtube_audio (L := lib) Samples.extract Samples.format "id"
      Samples.fetch Samples.prepared "short" ∅ = (fs', Ok (Some d)) /\
    metadata d !! "artist" = Some (Os.VStr "channel") /\
    metadata d !! "duration" = Some (Os.VInt 600).
Proof.
  destruct (download_youtube_audio (L := lib) Samples.extract Samples.format
              "id" Samples.fetch Samples.prepared "short" ∅)
    as [fs' [[d|]|e]] eqn:H; try (vm_compute in H; discriminate).
  destruct (download_metadata (L := lib) _ _ _ _ _ _ _ _ _ H)
    as (fs1 & info & Hf & _ & Hdu & _ & Ha & _).
  injection Hf as <- <-.
  exists fs', d. split; [reflexivity|]. split; [exact Ha | exact Hdu].
Defined.


(** ** The settings panel *)

(** X25. Whatever the settings panel returns lies within the ranges of
    the six sliders, the presets included; a pressed preset button goes
    before the sliders, and so the settings that reach [process_audio]
    have a room size and a damping between 0 and 1, a delay that is not
    negative and a slow factor of at most 0.3. *)
Theorem render_settings_panel_in_range
  (dreamy chill ambient default_button : bool) (sliders : params) :
  in_slider_range sliders ->
  in_slider_range
    (render_settings_panel dreamy chill ambient default_button sliders) /\
  (dreamy || chill || ambient || default_button = false ->
     render_settings_panel dreamy chill ambient default_button sliders =
       sliders) /\
  (dreamy || chill || ambient || default_button = true ->
     In (render_settings_panel dreamy chill ambient default_button sliders)
        [dreamy_preset; chill_preset; ambient_preset; DEFAULT_SETTINGS]) /\
  (default_button = true ->
     render_settings_panel dreamy chill ambient default_button sliders =
       DEFAULT_SETTINGS).
Proof.
  intros Hs.
  assert (Hp : forall p,
            In p [dreamy_preset; chill_preset; ambient_preset;
                  DEFAULT_SETTINGS] -> in_slider_range p).
  { intros p [<- | [<- | [<- | [<- | []]]]];
      unfold in_slider_range; simpl; repeat split; (discriminate || lia). }
  unfold render_settings_panel.
  destruct dreamy, chill, ambient, default_button; simpl;
    (split; [first [exact Hs | apply Hp; simpl; tauto]|]);
    (split; [intros; (discriminate || reflexivity)|]);
    (split; [intros; (discriminate || tauto)|]);
    intros; (discriminate || reflexivity).
Qed.

(** Untouched sliders and no button: the default settings. *)
Lemma render_settings_panel_in_range_witness :
  in_slider_range (render_settings_panel false false false false
                     DEFAULT_SETTINGS).
Proof.
  apply (render_settings_panel_in_range false false false false
           DEFAULT_SETTINGS).
  unfold in_slider_range. simpl. repeat split; (discriminate || lia).
Defined.
